(** * PowerPointExtractor: a shallow embedding of powerpoint_extractor.py

    The extractor walks the slide/shape object graph that python-pptx
    exposes and builds nested dicts and lists.  The object graph is modelled
    as immutable records, Python values as a small universal value type,
    attribute accesses that may raise as computations in an error monad, and
    the file written by [save_to_json] as explicit state. *)

From Stdlib Require Import List String Ascii NArith ZArith Bool Lia.
From Stdlib Require Import DecimalString Sorted.
Import ListNotations.
Open Scope string_scope.
Open Scope list_scope.

Set Implicit Arguments.
Set Warnings "-register-all".

(** ** Python strings *)

Module PyStr.

(** A Python [str] is a sequence of Unicode code points. *)
Definition str := list N.

(** A literal of the source, written with an ASCII Rocq string. *)
Definition lit (s : string) : str := map N_of_ascii (list_ascii_of_string s).

Definition eqb (a b : str) : bool :=
  if list_eq_dec N.eq_dec a b then true else false.

(** Truth value of a string: the empty string is false. *)
Definition truthy (s : str) : bool :=
  match s with [] => false | _ :: _ => true end.

(** The code points [str.strip()] removes: CPython's [Py_UNICODE_ISSPACE]. *)
Definition isspace (c : N) : bool :=
  ((9 <=? c) && (c <=? 13) || (28 <=? c) && (c <=? 32)
   || (c =? 133) || (c =? 160) || (c =? 5760)
   || (8192 <=? c) && (c <=? 8202)
   || (c =? 8232) || (c =? 8233) || (c =? 8239) || (c =? 8287)
   || (c =? 12288))%N.

Fixpoint lstrip (s : str) : str :=
  match s with
  | [] => []
  | c :: r => if isspace c then lstrip r else s
  end.

Definition rstrip (s : str) : str := rev (lstrip (rev s)).

(** [s.strip()] *)
Definition strip (s : str) : str := rstrip (lstrip s).

Definition newline : N := 10%N.

(** [s.split('\n')[0]]: the text before the first newline. *)
Fixpoint first_line (s : str) : str :=
  match s with
  | [] => []
  | c :: r => if (c =? newline)%N then [] else c :: first_line r
  end.

(** [sep.join(l)] *)
Fixpoint join (sep : str) (l : list str) : str :=
  match l with
  | [] => []
  | [x] => x
  | x :: r => x ++ sep ++ join sep r
  end.

(** [s.startswith(c)] and [s.endswith(c)] for a one-character [c]. *)
Definition startswith (s : str) (c : N) : bool :=
  match s with x :: _ => (x =? c)%N | [] => false end.

Definition endswith (s : str) (c : N) : bool := startswith (rev s) c.

(** [s.rfind(c)]: the index of the last occurrence of [c], or -1. *)
Fixpoint rfind_from (c : N) (s : str) (i last : Z) : Z :=
  match s with
  | [] => last
  | x :: r => rfind_from c r (i + 1) (if (x =? c)%N then i else last)
  end.

Definition rfind (c : N) (s : str) : Z := rfind_from c s 0 (-1).

(** The slices [s[i:]], [s[:j]] and [s[i:j]] for indices that are not
    negative. *)
Definition slice_from (s : str) (i : Z) : str := skipn (Z.to_nat i) s.
Definition slice_to (s : str) (j : Z) : str := firstn (Z.to_nat j) s.
Definition slice (s : str) (i j : Z) : str := slice_from (slice_to s j) i.

End PyStr.

Import PyStr.

(** ** Python values *)

(** The results are dicts with string keys (in insertion order), lists,
    strings, integers and booleans. *)
Inductive value : Type :=
| VNone
| VBool (b : bool)
| VInt (z : Z)
| VStr (s : str)
| VList (l : list value)
| VDict (d : list (str * value)).

Fixpoint assoc (k : str) (d : list (str * value)) : option value :=
  match d with
  | [] => None
  | (k', v) :: r => if PyStr.eqb k' k then Some v else assoc k r
  end.

(** [d[k]] for a dict [d]; [None] for a missing key or a non-dict. *)
Definition dict_get (k : string) (v : value) : option value :=
  match v with
  | VDict d => assoc (lit k) d
  | _ => None
  end.

Definition keys (v : value) : list str :=
  match v with
  | VDict d => map fst d
  | _ => []
  end.

(** A dict display [{"k": v, ...}] of the source. *)
Definition dict (d : list (string * value)) : value :=
  VDict (map (fun kv => (lit (fst kv), snd kv)) d).

(** ** Exceptions *)

Inductive exn : Type :=
| AttributeError
| ValueError
| OSError.

Inductive result (A : Type) : Type :=
| Ok (a : A)
| Raise (e : exn).

Arguments Ok {A} a.
Arguments Raise {A} e.

Definition ret {A} (a : A) : result A := Ok a.

Definition bind {A B} (m : result A) (k : A -> result B) : result B :=
  match m with
  | Ok a => k a
  | Raise e => Raise e
  end.

Declare Scope py_scope.
Delimit Scope py_scope with py.
Notation "x <- m ;; k" := (bind m (fun x => k))
  (at level 61, m at next level, right associativity) : py_scope.
Notation "' p <- m ;; k" := (bind m (fun x => match x with p => k end))
  (at level 61, p pattern, m at next level, right associativity) : py_scope.
Open Scope py_scope.

(** A [for] loop over a list with a loop state; the body says whether the
    loop goes on or stops at a [break]. *)
Inductive ctl (St : Type) : Type :=
| Next (s : St)
| Break (s : St).

Arguments Next {St} s.
Arguments Break {St} s.

Fixpoint for_in {A St} (l : list A) (body : A -> St -> result (ctl St))
  (s : St) : result St :=
  match l with
  | [] => ret s
  | x :: r =>
      c <- body x s ;;
      match c with
      | Next s' => for_in r body s'
      | Break s' => ret s'
      end
  end.

(** [enumerate(l, start)] *)
Fixpoint enumerate {A} (start : Z) (l : list A) : list (Z * A) :=
  match l with
  | [] => []
  | x :: r => (start, x) :: enumerate (start + 1) r
  end.

(** [len(l)] *)
Definition len {A} (l : list A) : Z := Z.of_nat (List.length l).

(** ** The document object graph *)

(** A member of an integer enumeration of the library: its integer value and
    what [str()] renders it as. *)
Record EnumMember := { enum_value : Z; enum_str : str }.

Record PlaceholderFormat := { type : Z }.

(** A shape.  [text_attr] is [None] for a shape that has no [text]
    attribute, [ph] is [None] for a shape that is not a placeholder. *)
Record Shape := {
  name : str;
  shape_type : EnumMember;
  width : Z;
  height : Z;
  left : Z;
  top : Z;
  text_attr : option str;
  ph : option PlaceholderFormat
}.

Record SlideLayout := { layout_name : str }.

Record NotesSlide := { notes_shapes : list Shape }.

Record Slide := {
  shapes : list Shape;
  slide_layout : SlideLayout;
  notes_slide : option NotesSlide
}.

Record Presentation := {
  slides : list Slide;
  slide_width : Z;
  slide_height : Z
}.

Record PowerPointExtractor := {
  file_path : str;
  presentation : Presentation
}.

(** [hasattr(shape, "text")] *)
Definition hasattr_text (shape : Shape) : bool :=
  match text_attr shape with Some _ => true | None => false end.

(** [shape.text]: raises [AttributeError] on a shape without the attribute. *)
Definition text (shape : Shape) : result str :=
  match text_attr shape with
  | Some t => Ok t
  | None => Raise AttributeError
  end.

(** [shape.is_placeholder] *)
Definition is_placeholder (shape : Shape) : bool :=
  match ph shape with Some _ => true | None => false end.

(** [shape.placeholder_format]: raises [ValueError] on a shape that is not a
    placeholder. *)
Definition placeholder_format (shape : Shape) : result PlaceholderFormat :=
  match ph shape with
  | Some p => Ok p
  | None => Raise ValueError
  end.

(** The condition [hasattr(shape, "text") and shape.text.strip()]: [and]
    reads [shape.text] only when the attribute is there. *)
Definition has_text_cond (shape : Shape) : result bool :=
  if hasattr_text shape then
    t <- text shape ;;
    ret (truthy (strip t))
  else ret false.

(** ** The extractor *)

Definition NO_TITLE : str := lit "No Title".

(** [extract_basic_info] *)
Definition extract_basic_info (self : PowerPointExtractor) : result value :=
  let info := dict [
    ("file_path", VStr (file_path self));
    ("total_slides", VInt (len (slides (presentation self))));
    ("slide_dimensions", dict [
       ("width", VInt (slide_width (presentation self)));
       ("height", VInt (slide_height (presentation self)))])] in
  ret info.

(** The inner loop of [extract_all_text]: the state is [slide_text]. *)
Definition all_text_shape (shape : Shape) (slide_text : list str)
  : result (ctl (list str)) :=
  c <- has_text_cond shape ;;
  if c then
    t <- text shape ;;
    ret (Next (slide_text ++ [strip t]))
  else ret (Next slide_text).

(** The outer loop of [extract_all_text]: the state is the pair of the lists
    under ["slides"] and ["all_text_combined"]. *)
Definition all_text_slide (item : Z * Slide) (all_text : list value * list str)
  : result (ctl (list value * list str)) :=
  let '(i, slide) := item in
  slide_text <- for_in (shapes slide) all_text_shape [] ;;
  let slide_info := dict [
    ("slide_number", VInt i);
    ("text_elements", VList (map VStr slide_text));
    ("combined_text", VStr (join (lit " ") slide_text))] in
  ret (Next (fst all_text ++ [slide_info], snd all_text ++ slide_text)).

Definition extract_all_text (self : PowerPointExtractor) : result value :=
  all_text <- for_in (enumerate 1 (slides (presentation self)))
                     all_text_slide ([], []) ;;
  ret (dict [
    ("slides", VList (fst all_text));
    ("all_text_combined", VList (map VStr (snd all_text)))]).

(** The first loop of [extract_slide_titles] (the search for the title
    placeholder): the state is [title]. *)
Definition title_placeholder_shape (shape : Shape) (title : str)
  : result (ctl str) :=
  if is_placeholder shape then
    placeholder <- placeholder_format shape ;;
    if (type placeholder =? 1)%Z then
      c <- has_text_cond shape ;;
      if c then
        t <- text shape ;;
        ret (Break (strip t))
      else ret (Break title)
    else ret (Next title)
  else ret (Next title).

(** The second loop of [extract_slide_titles] (the first text shape). *)
Definition first_text_shape (shape : Shape) (title : str)
  : result (ctl str) :=
  c <- has_text_cond shape ;;
  if c then
    t <- text shape ;;
    ret (Break (first_line (strip t)))
  else ret (Next title).

(** The title of one slide: the body of the loop over the slides, up to the
    [titles.append]. *)
Definition slide_title (slide : Slide) : result str :=
  let title := NO_TITLE in
  title <- for_in (shapes slide) title_placeholder_shape title ;;
  if PyStr.eqb title NO_TITLE then
    for_in (shapes slide) first_text_shape title
  else ret title.

Definition titles_slide (item : Z * Slide) (titles : list value)
  : result (ctl (list value)) :=
  let '(i, slide) := item in
  title <- slide_title slide ;;
  ret (Next (titles ++ [dict [("slide_number", VInt i);
                              ("title", VStr title)]])).

Definition extract_slide_titles (self : PowerPointExtractor) : result value :=
  titles <- for_in (enumerate 1 (slides (presentation self))) titles_slide [] ;;
  ret (VList titles).

(** The inner loop of [extract_images_info]. *)
Definition images_shape (shape : Shape) (slide_images : list value)
  : result (ctl (list value)) :=
  if (enum_value (shape_type shape) =? 13)%Z then
    let image_info := dict [
      ("shape_name", VStr (name shape));
      ("width", VInt (width shape));
      ("height", VInt (height shape));
      ("left", VInt (left shape));
      ("top", VInt (top shape))] in
    ret (Next (slide_images ++ [image_info]))
  else ret (Next slide_images).

Definition images_slide (item : Z * Slide) (images_info : list value)
  : result (ctl (list value)) :=
  let '(i, slide) := item in
  slide_images <- for_in (shapes slide) images_shape [] ;;
  match slide_images with
  | _ :: _ =>
      ret (Next (images_info ++ [dict [
        ("slide_number", VInt i);
        ("images", VList slide_images);
        ("image_count", VInt (len slide_images))]]))
  | [] => ret (Next images_info)
  end.

Definition extract_images_info (self : PowerPointExtractor) : result value :=
  images_info <- for_in (enumerate 1 (slides (presentation self)))
                        images_slide [] ;;
  ret (VList images_info).

(** The inner loop of [extract_notes]: the state is [notes_text]. *)
Definition notes_shape (shape : Shape) (notes_text : str)
  : result (ctl str) :=
  c <- has_text_cond shape ;;
  if c then
    t <- text shape ;;
    ret (Next (notes_text ++ (strip t ++ lit " ")))
  else ret (Next notes_text).

Definition notes_slide_text (slide : Slide) : result str :=
  match notes_slide slide with
  | Some ns => for_in (notes_shapes ns) notes_shape []
  | None => ret []
  end.

Definition notes_slide_step (item : Z * Slide) (notes_info : list value)
  : result (ctl (list value)) :=
  let '(i, slide) := item in
  notes_text <- notes_slide_text slide ;;
  if truthy (strip notes_text) then
    ret (Next (notes_info ++ [dict [
      ("slide_number", VInt i);
      ("notes", VStr (strip notes_text))]]))
  else ret (Next notes_info).

Definition extract_notes (self : PowerPointExtractor) : result value :=
  notes_info <- for_in (enumerate 1 (slides (presentation self)))
                       notes_slide_step [] ;;
  ret (VList notes_info).

(** The inner loop of [extract_slide_layout_info]: the state is the list
    under ["shapes"]. *)
Definition layout_shape (shape : Shape) (shape_infos : list value)
  : result (ctl (list value)) :=
  has_text <- has_text_cond shape ;;
  let shape_info := dict [
    ("name", VStr (name shape));
    ("type", VStr (enum_str (shape_type shape)));
    ("has_text", VBool has_text);
    ("is_placeholder", VBool (is_placeholder shape))] in
  ret (Next (shape_infos ++ [shape_info])).

Definition layout_slide (item : Z * Slide) (layout_info : list value)
  : result (ctl (list value)) :=
  let '(i, slide) := item in
  let layout := slide_layout slide in
  shape_infos <- for_in (shapes slide) layout_shape [] ;;
  let slide_layout_info := dict [
    ("slide_number", VInt i);
    ("layout_name", VStr (layout_name layout));
    ("shape_count", VInt (len (shapes slide)));
    ("shapes", VList shape_infos)] in
  ret (Next (layout_info ++ [slide_layout_info])).

Definition extract_slide_layout_info (self : PowerPointExtractor)
  : result value :=
  layout_info <- for_in (enumerate 1 (slides (presentation self)))
                        layout_slide [] ;;
  ret (VList layout_info).

(** [extract_all_information]: the six calls in the order of the dict
    display. *)
Definition extract_all_information (self : PowerPointExtractor)
  : result value :=
  basic_info <- extract_basic_info self ;;
  titles <- extract_slide_titles self ;;
  text_content <- extract_all_text self ;;
  images_info <- extract_images_info self ;;
  notes <- extract_notes self ;;
  layout_info <- extract_slide_layout_info self ;;
  ret (dict [
    ("basic_info", basic_info);
    ("titles", titles);
    ("text_content", text_content);
    ("images_info", images_info);
    ("notes", notes);
    ("layout_info", layout_info)]).

(** ** Paths and the file written *)

(** [os.path] on a POSIX system (CPython's [posixpath]). *)
Module os_path.

Definition sep : N := 47%N.
Definition extsep : N := 46%N.

(** [basename(p)]: [i = p.rfind(sep) + 1; return p[i:]] *)
Definition basename (p : str) : str :=
  let i := (rfind sep p + 1)%Z in
  slice_from p i.

(** [splitext(p)]: the extension starts at the last dot of the last path
    component, unless that component has only dots before it. *)
Definition splitext (p : str) : str * str :=
  let sepIndex := rfind sep p in
  let dotIndex := rfind extsep p in
  if (dotIndex >? sepIndex)%Z then
    if existsb (fun c => negb (c =? extsep)%N)
               (slice p (sepIndex + 1) dotIndex)
    then (slice_to p dotIndex, slice_from p dotIndex)
    else (p, [])
  else (p, []).

(** [join(a, b)] *)
Definition join (a b : str) : str :=
  if startswith b sep then b
  else if negb (truthy a) || endswith a sep then a ++ b
  else a ++ [sep] ++ b.

End os_path.

(** What the program can see and change outside itself: which paths
    [open(path, 'w')] accepts, the files written (the latest first, each
    with the value that was serialised into it) and the lines printed. *)
Record World := {
  can_open : str -> bool;
  files : list (str * value);
  stdout : list str
}.

(** [open(output_file, 'w', encoding='utf-8')] *)
Definition open_w (path : str) (w : World) : result unit :=
  if can_open w path then Ok tt else Raise OSError.

(** [json.dump(all_info, f, indent=2, ensure_ascii=False)] into the file
    opened at [path]. *)
Definition json_dump (all_info : value) (path : str) (w : World) : World :=
  {| can_open := can_open w;
     files := (path, all_info) :: files w;
     stdout := stdout w |}.

(** [print(line)] *)
Definition print (line : str) (w : World) : World :=
  {| can_open := can_open w;
     files := files w;
     stdout := stdout w ++ [line] |}.

(** The path [save_to_json] derives from [self.file_path]. *)
Definition default_output_file (self : PowerPointExtractor) : str :=
  let base_name := fst (os_path.splitext (os_path.basename (file_path self))) in
  os_path.join (lit "slides") (base_name ++ lit "_extracted_info.json").

(** [save_to_json]: [not output_file] holds for [None] and for the empty
    string. *)
Definition save_to_json (self : PowerPointExtractor) (output_file : option str)
  (w : World) : result (str * World) :=
  let output_file :=
    match output_file with
    | Some p => if negb (truthy p) then default_output_file self else p
    | None => default_output_file self
    end in
  all_info <- extract_all_information self ;;
  _ <- open_w output_file w ;;
  let w := json_dump all_info output_file w in
  let w := print (lit "Extracted information saved to: " ++ output_file) w in
  ret (output_file, w).

(** ** What the loops compute *)

(** Whether a shape has a [text] attribute whose trimmed text is not empty,
    and that trimmed text. *)
Definition has_text (shape : Shape) : bool :=
  match text_attr shape with
  | Some t => truthy (strip t)
  | None => false
  end.

Definition stripped (shape : Shape) : str :=
  match text_attr shape with
  | Some t => strip t
  | None => []
  end.

(** A placeholder whose type code is 1. *)
Definition is_title_placeholder (shape : Shape) : bool :=
  match ph shape with
  | Some p => (type p =? 1)%Z
  | None => false
  end.

(** Shape type 13. *)
Definition is_picture (shape : Shape) : bool :=
  (enum_value (shape_type shape) =? 13)%Z.

(** The text fragments of a list of shapes: the trimmed text of the shapes
    that have some, in shape order. *)
Definition text_fragments (l : list Shape) : list str :=
  map stripped (filter has_text l).


(** The entry of [extract_all_text] for a numbered slide. *)
Definition text_entry (item : Z * Slide) : value :=
  let fragments := text_fragments (shapes (snd item)) in
  dict [
    ("slide_number", VInt (fst item));
    ("text_elements", VList (map VStr fragments));
    ("combined_text", VStr (join (lit " ") fragments))].

(** A shape that has only a text (a text box); the other attributes play
    no part in what is proved about it. *)
Definition text_box (t : str) : Shape :=
  {| name := lit "TextBox";
     shape_type := {| enum_value := 17; enum_str := lit "TEXT_BOX (17)" |};
     width := 0; height := 0; left := 0; top := 0;
     text_attr := Some t;
     ph := None |}.

Definition hi_there : str := lit "Hi" ++ [newline] ++ lit "There".

(** What the first loop of [extract_slide_titles] leaves in [title]: the
    trimmed text of the first placeholder of type 1, when it has some. *)
Definition title_scan (l : list Shape) (title : str) : str :=
  match find is_title_placeholder l with
  | Some shape => if has_text shape then stripped shape else title
  | None => title
  end.

(** What the second loop leaves in [title]: the first line of the trimmed
    text of the first shape that has some. *)
Definition first_text_line (l : list Shape) (title : str) : str :=
  match find has_text l with
  | Some shape => first_line (stripped shape)
  | None => title
  end.




(** A placeholder of type code [ty] with the text attribute [t]. *)
Definition placeholder (ty : Z) (t : option str) : Shape :=
  {| name := lit "Placeholder";
     shape_type := {| enum_value := 14; enum_str := lit "PLACEHOLDER (14)" |};
     width := 0; height := 0; left := 0; top := 0;
     text_attr := t;
     ph := Some {| type := ty |} |}.

Definition slide_of (l : list Shape) : Slide :=
  {| shapes := l;
     slide_layout := {| layout_name := lit "Title and Content" |};
     notes_slide := None |}.

(** A body placeholder (type 2) without text, then a text box. *)
Definition body_then_text : Slide :=
  slide_of [placeholder 2 (Some []); text_box (lit "Hello")].




Definition quarterly : str := lit "Quarterly Report" ++ [newline] ++ lit "Subtitle".

Definition quarterly_slide : Slide := slide_of [text_box quarterly].

(** The title of a slide, without the error monad. *)
Definition title_of (slide : Slide) : str :=
  let title := title_scan (shapes slide) NO_TITLE in
  if PyStr.eqb title NO_TITLE
  then first_text_line (shapes slide) title
  else title.

(** The entry of [extract_slide_titles] for a numbered slide. *)
Definition title_entry (item : Z * Slide) : value :=
  dict [("slide_number", VInt (fst item)); ("title", VStr (title_of (snd item)))].

(** The record of one picture. *)
Definition image_info (shape : Shape) : value :=
  dict [
    ("shape_name", VStr (name shape));
    ("width", VInt (width shape));
    ("height", VInt (height shape));
    ("left", VInt (left shape));
    ("top", VInt (top shape))].

Definition pictures (slide : Slide) : list Shape :=
  filter is_picture (shapes slide).

(** Whether a numbered slide has a picture, and its entry in
    [extract_images_info] when it has. *)
Definition has_picture (item : Z * Slide) : bool :=
  existsb is_picture (shapes (snd item)).

Definition images_entry (item : Z * Slide) : value :=
  dict [
    ("slide_number", VInt (fst item));
    ("images", VList (map image_info (pictures (snd item))));
    ("image_count", VInt (len (pictures (snd item))))].

(** The notes text of a slide before the final trim: every fragment of the
    notes slide followed by one space. *)
Definition notes_text_of (slide : Slide) : str :=
  match notes_slide slide with
  | Some ns =>
      List.concat (map (fun fragment => fragment ++ lit " ")
                       (text_fragments (notes_shapes ns)))
  | None => []
  end.

Definition has_notes (item : Z * Slide) : bool :=
  truthy (strip (notes_text_of (snd item))).

Definition notes_entry (item : Z * Slide) : value :=
  dict [
    ("slide_number", VInt (fst item));
    ("notes", VStr (strip (notes_text_of (snd item))))].

(** The descriptor of one shape in [extract_slide_layout_info]. *)
Definition shape_info (shape : Shape) : value :=
  dict [
    ("name", VStr (name shape));
    ("type", VStr (enum_str (shape_type shape)));
    ("has_text", VBool (has_text shape));
    ("is_placeholder", VBool (is_placeholder shape))].

Definition layout_entry (item : Z * Slide) : value :=
  dict [
    ("slide_number", VInt (fst item));
    ("layout_name", VStr (layout_name (slide_layout (snd item))));
    ("shape_count", VInt (len (shapes (snd item))));
    ("shapes", VList (map shape_info (shapes (snd item))))].

(** The ordinals 1, 2, ..., n. *)
Definition ordinals (n : nat) : list Z := map Z.of_nat (seq 1 n).

(** A picture: a shape of type 13 without a [text] attribute. *)
Definition picture (n : str) (w h l t : Z) : Shape :=
  {| name := n;
     shape_type := {| enum_value := 13; enum_str := lit "PICTURE (13)" |};
     width := w; height := h; left := l; top := t;
     text_attr := None;
     ph := None |}.

(** A slide with the notes slide [ns] and no shape of its own. *)
Definition slide_with_notes (ns : option NotesSlide) : Slide :=
  {| shapes := [];
     slide_layout := {| layout_name := lit "Blank" |};
     notes_slide := ns |}.

Definition blank_notes : NotesSlide :=
  {| notes_shapes := [placeholder 12 (Some (lit "  ")); picture (lit "Logo") 1 1 0 0] |}.

(** The six keys of the report, in the order of the dict display. *)
Definition report_keys : list str :=
  map lit ["basic_info"; "titles"; "text_content"; "images_info"; "notes";
           "layout_info"].

(** The stem of the input path: its base name without the extension. *)
Definition stem (self : PowerPointExtractor) : str :=
  fst (os_path.splitext (os_path.basename (file_path self))).

(** An extractor opened on /tmp/deck.pptx, with one slide. *)
Definition deck : PowerPointExtractor :=
  {| file_path := lit "/tmp/deck.pptx";
     presentation := {| slides := [quarterly_slide];
                        slide_width := 9144000;
                        slide_height := 6858000 |} |}.

(** A world in which every path can be opened and nothing was written. *)
Definition empty_world : World :=
  {| can_open := fun _ => true; files := []; stdout := [] |}.

(** ** The command line driver *)

(** What [main] and the constructor see of the outside: whether a path
    exists ([os.path.exists]), what [Presentation(path)] returns (the
    document, or the text of the exception it raises), the text of the
    exceptions the interpreter and the libraries raise, and the text of a
    list or a dict. *)
Inductive exception : Type :=
| Exception (msg : str)
| Raised (e : exn)
| KeyError (key : str)
| TypeError.

Record Env := {
  path_exists : str -> bool;
  open_presentation : str -> str + Presentation;
  builtin_message : exception -> str;
  container_repr : value -> str
}.

(** [str(e)] for an exception. *)
Definition message (env : Env) (e : exception) : str :=
  match e with
  | Exception msg => msg
  | _ => builtin_message env e
  end.

(** [str(n)] for an integer. *)
Definition str_of_int (z : Z) : str := lit (NilZero.string_of_int (Z.to_int z)).

(** What a replacement field [{v}] of an f-string, and [print(v)], turn a
    value into. *)
Definition format (env : Env) (v : value) : str :=
  match v with
  | VNone => lit "None"
  | VBool true => lit "True"
  | VBool false => lit "False"
  | VInt z => str_of_int z
  | VStr s => s
  | VList _ | VDict _ => container_repr env v
  end.

(** Code that prints and may raise: what was printed before an exception
    stays printed. *)
Definition M (A : Type) : Type := World -> (exception + A) * World.

Definition mret {A} (a : A) : M A := fun w => (inr a, w).

Definition mraise {A} (e : exception) : M A := fun w => (inl e, w).

Definition mbind {A B} (m : M A) (k : A -> M B) : M B :=
  fun w =>
    match m w with
    | (inr a, w') => k a w'
    | (inl e, w') => (inl e, w')
    end.

Notation "x <~ m ;; k" := (mbind m (fun x => k))
  (at level 61, m at next level, right associativity) : py_scope.

(** [print(line)] as a step. *)
Definition mprint (line : str) : M unit := fun w => (inr tt, print line w).

(** A call of an extractor operation that reads only. *)
Definition call {A} (r : result A) : M A :=
  fun w =>
    match r with
    | Ok a => (inr a, w)
    | Raise e => (inl (Raised e), w)
    end.

(** A call of [save_to_json]. *)
Definition call_save (self : PowerPointExtractor) (output_file : option str)
  : M str :=
  fun w =>
    match save_to_json self output_file w with
    | Ok (path, w') => (inr path, w')
    | Raise e => (inl (Raised e), w)
    end.

(** [v[k]] for a string key [k]. *)
Definition getitem (v : value) (k : string) : M value :=
  match v with
  | VDict d =>
      match assoc (lit k) d with
      | Some x => mret x
      | None => mraise (KeyError (lit k))
      end
  | _ => mraise TypeError
  end.

(** The items a [for] loop over [v] runs through. *)
Definition iter (v : value) : M (list value) :=
  match v with
  | VList l => mret l
  | VDict d => mret (map (fun kv => VStr (fst kv)) d)
  | VStr s => mret (map (fun c => VStr [c]) s)
  | _ => mraise TypeError
  end.

(** A [for] loop without a loop state. *)
Fixpoint mfor {A} (l : list A) (body : A -> M unit) : M unit :=
  match l with
  | [] => mret tt
  | x :: r => _ <~ body x ;; mfor r body
  end.

(** [load_presentation] *)
Definition load_presentation (env : Env) (file_path : str) : M Presentation :=
  match open_presentation env file_path with
  | inr presentation =>
      _ <~ mprint (lit "Successfully loaded PowerPoint file: " ++ file_path) ;;
      mret presentation
  | inl e => mraise (Exception (lit "Error loading PowerPoint file: " ++ e))
  end.

(** [PowerPointExtractor(file_path)] *)
Definition __init__ (env : Env) (file_path : str) : M PowerPointExtractor :=
  presentation <~ load_presentation env file_path ;;
  mret {| file_path := file_path; presentation := presentation |}.

(** The parsed command line. *)
Record Args := {
  arg_file_path : str;
  arg_output : option str;
  arg_text_only : bool;
  arg_titles_only : bool
}.

(** The body of the loop of the [--text-only] branch. *)
Definition print_slide_text (env : Env) (slide : value) : M unit :=
  n <~ getitem slide "slide_number" ;;
  _ <~ mprint ([newline] ++ lit "Slide " ++ format env n ++ lit ":") ;;
  c <~ getitem slide "combined_text" ;;
  mprint (format env c).

(** The body of the loop of the [--titles-only] branch. *)
Definition print_slide_title (env : Env) (title_info : value) : M unit :=
  n <~ getitem title_info "slide_number" ;;
  t <~ getitem title_info "title" ;;
  mprint (lit "Slide " ++ format env n ++ lit ": " ++ format env t).

(** The [try] block of [main]. *)
Definition main_try (env : Env) (args : Args) : M unit :=
  extractor <~ __init__ env (arg_file_path args) ;;
  if arg_text_only args then
    text_info <~ call (extract_all_text extractor) ;;
    _ <~ mprint ([newline] ++ lit "=== EXTRACTED TEXT ===") ;;
    slides_value <~ getitem text_info "slides" ;;
    items <~ iter slides_value ;;
    mfor items (print_slide_text env)
  else if arg_titles_only args then
    titles <~ call (extract_slide_titles extractor) ;;
    _ <~ mprint ([newline] ++ lit "=== SLIDE TITLES ===") ;;
    items <~ iter titles ;;
    mfor items (print_slide_title env)
  else
    output_file <~ call_save extractor (arg_output args) ;;
    basic_info <~ call (extract_basic_info extractor) ;;
    _ <~ mprint ([newline] ++ lit "=== SUMMARY ===") ;;
    fp <~ getitem basic_info "file_path" ;;
    _ <~ mprint (lit "File: " ++ format env fp) ;;
    total <~ getitem basic_info "total_slides" ;;
    _ <~ mprint (lit "Total slides: " ++ format env total) ;;
    dims <~ getitem basic_info "slide_dimensions" ;;
    w <~ getitem dims "width" ;;
    dims' <~ getitem basic_info "slide_dimensions" ;;
    h <~ getitem dims' "height" ;;
    _ <~ mprint (lit "Dimensions: " ++ format env w ++ lit " x " ++ format env h) ;;
    mprint (lit "Full extraction saved to: " ++ output_file).

(** [main], after the command line is parsed. *)
Definition main (env : Env) (args : Args) (w : World) : World :=
  if negb (path_exists env (arg_file_path args)) then
    print (lit "Error: File '" ++ arg_file_path args ++ lit "' does not exist.") w
  else
    match main_try env args w with
    | (inr _, w') => w'
    | (inl e, w') => print (lit "Error: " ++ message env e) w'
    end.

(** The world after the lines [lines] are printed. *)
Definition prints (lines : list str) (w : World) : World :=
  {| can_open := can_open w;
     files := files w;
     stdout := stdout w ++ lines |}.

(** The output path of [save_to_json] for the argument [output_file]. *)
Definition output_path (self : PowerPointExtractor) (output_file : option str)
  : str :=
  match output_file with
  | Some p => if negb (truthy p) then default_output_file self else p
  | None => default_output_file self
  end.

(** The lines the [--text-only] and [--titles-only] branches print for a
    numbered slide. *)
Definition text_lines (item : Z * Slide) : list str :=
  [[newline] ++ lit "Slide " ++ str_of_int (fst item) ++ lit ":";
   join (lit " ") (text_fragments (shapes (snd item)))].

Definition title_line (item : Z * Slide) : str :=
  lit "Slide " ++ str_of_int (fst item) ++ lit ": " ++ title_of (snd item).

(** The lines of the summary of the default branch. *)
Definition summary_lines (self : PowerPointExtractor) (path : str) : list str :=
  [[newline] ++ lit "=== SUMMARY ===";
   lit "File: " ++ file_path self;
   lit "Total slides: " ++ str_of_int (len (slides (presentation self)));
   lit "Dimensions: " ++ str_of_int (slide_width (presentation self))
     ++ lit " x " ++ str_of_int (slide_height (presentation self));
   lit "Full extraction saved to: " ++ path].

(** An environment in which only /tmp/deck.pptx exists, and the command
    lines on it. *)
Definition deck_env : Env :=
  {| path_exists := fun p => PyStr.eqb p (lit "/tmp/deck.pptx");
     open_presentation := fun p =>
       if PyStr.eqb p (lit "/tmp/deck.pptx") then inr (presentation deck)
       else inl (lit "Package not found");
     builtin_message := fun _ => lit "[Errno 2] No such file or directory";
     container_repr := fun _ => lit "[...]" |}.

Definition deck_args (text_only titles_only : bool) : Args :=
  {| arg_file_path := lit "/tmp/deck.pptx";
     arg_output := None;
     arg_text_only := text_only;
     arg_titles_only := titles_only |}.

(** A text that starts with a character that is not whitespace, and one
    that also ends with such a character. *)
Definition head_ok (s : str) : Prop :=
  match s with
  | c :: _ => isspace c = false
  | [] => False
  end.

Definition trimmed (s : str) : Prop := head_ok s /\ head_ok (rev s).

(** The has_text flag of a shape descriptor of [extract_slide_layout_info]. *)
Definition has_text_flag (info : value) : bool :=
  match dict_get "has_text" info with
  | Some (VBool b) => b
  | _ => false
  end.

(** A layout entry and a text entry that belong to the same slide: the same
    ordinal, a shape count that is the number of descriptors, and as many
    descriptors flagged has_text as there are text elements. *)
Definition same_slide (layout text : value) : Prop :=
  exists n infos elements,
    dict_get "slide_number" layout = Some (VInt n)
    /\ dict_get "slide_number" text = Some (VInt n)
    /\ dict_get "shapes" layout = Some (VList infos)
    /\ dict_get "shape_count" layout = Some (VInt (len infos))
    /\ dict_get "text_elements" text = Some (VList elements)
    /\ List.length (filter has_text_flag infos) = List.length elements.

(** An entry of [extract_images_info] that is well formed: at least one
    picture, and a count that is the number of pictures listed. *)
Definition images_entry_ok (entry : value) : Prop :=
  exists n images,
    dict_get "slide_number" entry = Some (VInt n)
    /\ dict_get "images" entry = Some (VList images)
    /\ images <> []
    /\ dict_get "image_count" entry = Some (VInt (len images)).

(** A slide with a picture, and a document of three slides of which the
    second has the picture and notes. *)
Definition logo : Shape := picture (lit "Logo") 100 50 10 20.

Definition speaker_notes : NotesSlide :=
  {| notes_shapes := [placeholder 12 (Some (lit " Greet the audience "));
                      placeholder 13 (Some (lit "3"))] |}.

Definition picture_slide : Slide :=
  {| shapes := [placeholder 1 (Some (lit "Results")); logo];
     slide_layout := {| layout_name := lit "Picture with Caption" |};
     notes_slide := Some speaker_notes |}.

Definition report_deck : PowerPointExtractor :=
  {| file_path := lit "/home/me/talks/report.pptx";
     presentation := {| slides := [quarterly_slide; picture_slide; body_then_text];
                        slide_width := 9144000;
                        slide_height := 6858000 |} |}.

(** The fragments of the notes slide of a slide, joined with one space. *)
Definition notes_joined (slide : Slide) : str :=
  match notes_slide slide with
  | Some ns => join (lit " ") (text_fragments (notes_shapes ns))
  | None => []
  end.

(** The content of the file at [path]: what the latest write to that path
    put there. *)
Definition file_content (path : str) (w : World) : option value :=
  match find (fun written => PyStr.eqb (fst written) path) (files w) with
  | Some written => Some (snd written)
  | None => None
  end.

(** A world in which no path can be opened. *)
Definition closed_world : World :=
  {| can_open := fun _ => false; files := []; stdout := [] |}.
Unset Implicit Arguments.

Section Loops.

Context {A St : Type}.

Lemma for_in_fold (f : St -> A -> St) (body : A -> St -> result (ctl St)) :
  (forall x s, body x s = Ok (Next (f s x))) ->
  forall l s, for_in l body s = Ok (fold_left f l s).
Proof.
  intros Hbody l; induction l as [| x r IH]; intros s; simpl.
  - reflexivity.
  - rewrite Hbody; simpl. apply IH.
Qed.

End Loops.

Lemma fold_left_flat {A B} (g : A -> list B) (l : list A) (acc : list B) :
  fold_left (fun acc x => acc ++ g x) l acc = acc ++ flat_map g l.
Proof.
  revert acc; induction l as [| x r IH]; intros acc; simpl.
  - now rewrite app_nil_r.
  - rewrite IH. now rewrite app_assoc.
Qed.

(** A loop whose body appends to the loop state. *)
Lemma for_in_append {A B} (g : A -> list B)
  (body : A -> list B -> result (ctl (list B))) :
  (forall x s, body x s = Ok (Next (s ++ g x))) ->
  forall l s, for_in l body s = Ok (s ++ flat_map g l).
Proof.
  intros Hbody l s.
  rewrite (for_in_fold (fun acc x => acc ++ g x) body Hbody).
  now rewrite fold_left_flat.
Qed.

Lemma flat_map_filter_map {A B} (p : A -> bool) (f : A -> B) (l : list A) :
  flat_map (fun x => if p x then [f x] else []) l = map f (filter p l).
Proof.
  induction l as [| x r IH]; simpl; [reflexivity |].
  destruct (p x); simpl; now rewrite IH.
Qed.

Lemma has_text_cond_ok (shape : Shape) :
  has_text_cond shape = Ok (has_text shape).
Proof.
  unfold has_text_cond, hasattr_text, has_text, text.
  destruct (text_attr shape); reflexivity.
Qed.

(** ** Strings *)

Lemma lstrip_spaces (s : str) :
  (forall c, In c s -> isspace c = true) -> lstrip s = [].
Proof.
  induction s as [| c r IH]; simpl; intros H; [reflexivity |].
  rewrite (H c (or_introl eq_refl)). apply IH. intros; apply H; now right.
Qed.

Lemma strip_spaces (s : str) :
  (forall c, In c s -> isspace c = true) -> strip s = [].
Proof.
  intros H. unfold strip. now rewrite (lstrip_spaces s H).
Qed.

Lemma eqb_eq (a b : str) : PyStr.eqb a b = true <-> a = b.
Proof.
  unfold PyStr.eqb. destruct (list_eq_dec N.eq_dec a b); split; congruence.
Qed.

Lemma eqb_refl (a : str) : PyStr.eqb a a = true.
Proof. now apply eqb_eq. Qed.

Lemma eqb_neq (a b : str) : PyStr.eqb a b = false <-> a <> b.
Proof.
  unfold PyStr.eqb. destruct (list_eq_dec N.eq_dec a b); split; congruence.
Qed.

Lemma lstrip_head (s : str) (c : N) (r : str) :
  lstrip s = c :: r -> isspace c = false.
Proof.
  induction s as [| x s' IH]; simpl; [discriminate |].
  destruct (isspace x) eqn:E; [exact IH |].
  intros H; injection H as <- _. exact E.
Qed.

Lemma lstrip_snoc (a : str) (c : N) :
  isspace c = false -> lstrip (a ++ [c]) = lstrip a ++ [c].
Proof.
  intros Hc. induction a as [| x a' IH]; simpl.
  - now rewrite Hc.
  - destruct (isspace x); [exact IH | reflexivity].
Qed.

Lemma rstrip_cons (c : N) (r : str) :
  isspace c = false -> rstrip (c :: r) = c :: rstrip r.
Proof.
  intros Hc. unfold rstrip; simpl.
  rewrite (lstrip_snoc _ _ Hc), rev_app_distr. reflexivity.
Qed.

(** A trimmed text that is not empty starts with a character that is not
    whitespace, and trimming leaves such a start in place. *)
Lemma strip_head (s : str) (c : N) (r : str) :
  strip s = c :: r -> isspace c = false.
Proof.
  unfold strip. destruct (lstrip s) as [| x s'] eqn:E.
  - discriminate.
  - pose proof (lstrip_head s _ _ E) as Hx. rewrite (rstrip_cons _ _ Hx).
    intros H; injection H as <- _. exact Hx.
Qed.

Lemma strip_cons (c : N) (r : str) :
  isspace c = false -> strip (c :: r) = c :: rstrip r.
Proof.
  intros Hc. unfold strip; simpl. rewrite Hc. now apply rstrip_cons.
Qed.

(** ** The string and path functions on known inputs *)

Example strip_trims_both_ends :
  strip (lit "  Hi there " ++ [newline]) = lit "Hi there".
Proof. reflexivity. Qed.

Example strip_keeps_inner_newline : strip hi_there = hi_there.
Proof. reflexivity. Qed.

Example first_line_without_newline : first_line (lit "Agenda") = lit "Agenda".
Proof. reflexivity. Qed.

Example join_with_space :
  join (lit " ") [lit "a"; lit "b"; lit "c"] = lit "a b c".
Proof. reflexivity. Qed.

Example basename_of_path : os_path.basename (lit "/tmp/deck.pptx") = lit "deck.pptx".
Proof. reflexivity. Qed.

Example basename_of_directory : os_path.basename (lit "/tmp/") = [].
Proof. reflexivity. Qed.

Example splitext_last_dot :
  os_path.splitext (lit "a.tar.gz") = (lit "a.tar", lit ".gz").
Proof. reflexivity. Qed.

Example splitext_leading_dot :
  os_path.splitext (lit ".bashrc") = (lit ".bashrc", []).
Proof. reflexivity. Qed.

Example join_absolute_second :
  os_path.join (lit "slides") (lit "/x.json") = lit "/x.json".
Proof. reflexivity. Qed.

(** ** Numbered slides *)

Lemma enumerate_length {A} (l : list A) (k : Z) :
  List.length (enumerate k l) = List.length l.
Proof.
  revert k; induction l as [| x r IH]; intros k; simpl; [reflexivity |].
  now rewrite IH.
Qed.

Lemma flat_map_enumerate {A B} (g : A -> list B) (l : list A) (k : Z) :
  flat_map (fun item => g (snd item)) (enumerate k l) = flat_map g l.
Proof.
  revert k; induction l as [| x r IH]; intros k; simpl; [reflexivity |].
  now rewrite IH.
Qed.

(** ** extract_all_text *)

Lemma all_text_shape_ok (shape : Shape) (slide_text : list str) :
  all_text_shape shape slide_text
  = Ok (Next (slide_text ++ (if has_text shape then [stripped shape] else []))).
Proof.
  unfold all_text_shape. rewrite has_text_cond_ok; simpl.
  unfold has_text, stripped, text.
  destruct (text_attr shape) as [t |]; simpl.
  - destruct (truthy (strip t)); simpl; [reflexivity | now rewrite app_nil_r].
  - now rewrite app_nil_r.
Qed.

Lemma slide_text_ok (l : list Shape) (slide_text : list str) :
  for_in l all_text_shape slide_text = Ok (slide_text ++ text_fragments l).
Proof.
  rewrite (for_in_append (fun shape => if has_text shape then [stripped shape] else [])
             all_text_shape all_text_shape_ok).
  unfold text_fragments. now rewrite flat_map_filter_map.
Qed.

Lemma all_text_slide_ok (item : Z * Slide) (all_text : list value * list str) :
  all_text_slide item all_text
  = Ok (Next (fst all_text ++ [text_entry item],
              snd all_text ++ text_fragments (shapes (snd item)))).
Proof.
  destruct item as [i slide]. unfold all_text_slide.
  rewrite slide_text_ok; simpl. reflexivity.
Qed.

Lemma all_text_loop_ok (items : list (Z * Slide)) (all_text : list value * list str) :
  for_in items all_text_slide all_text
  = Ok (fst all_text ++ map text_entry items,
        snd all_text ++ flat_map (fun item => text_fragments (shapes (snd item))) items).
Proof.
  revert all_text; induction items as [| item r IH]; intros [a b]; simpl.
  - now rewrite !app_nil_r.
  - rewrite all_text_slide_ok; simpl. rewrite IH; simpl.
    now rewrite <- !app_assoc.
Qed.

Lemma extract_all_text_ok (self : PowerPointExtractor) :
  extract_all_text self
  = Ok (dict [
      ("slides", VList (map text_entry (enumerate 1 (slides (presentation self)))));
      ("all_text_combined",
       VList (map VStr (flat_map (fun slide => text_fragments (shapes slide))
                                 (slides (presentation self)))))]).
Proof.
  unfold extract_all_text. rewrite all_text_loop_ok; simpl.
  now rewrite (flat_map_enumerate (fun slide => text_fragments (shapes slide))).
Qed.

Lemma text_fragments_app (l1 l2 : list Shape) :
  text_fragments (l1 ++ l2) = text_fragments l1 ++ text_fragments l2.
Proof.
  unfold text_fragments. now rewrite filter_app, map_app.
Qed.

(** C4: [extract_all_text] visits the slides and their shapes in order and
    keeps the trimmed text of exactly the shapes that have a text whose
    trimmed form is not empty.  Each slide's entry holds its ordinal, that
    list of fragments and the fragments joined with one space; the list
    under ["all_text_combined"] is the concatenation of the slides'
    fragments in slide order.  A shape whose text is only whitespace adds
    nothing, and the text "Hi\nThere" is one fragment, not split into
    lines. *)
Theorem all_text_fragments :
  (forall self,
     extract_all_text self
     = Ok (dict [
         ("slides",
          VList (map (fun item =>
                        dict [
                          ("slide_number", VInt (fst item));
                          ("text_elements",
                           VList (map VStr (text_fragments (shapes (snd item)))));
                          ("combined_text",
                           VStr (join (lit " ") (text_fragments (shapes (snd item)))))])
                     (enumerate 1 (slides (presentation self)))));
         ("all_text_combined",
          VList (map VStr (List.concat (map (fun slide => text_fragments (shapes slide))
                                       (slides (presentation self))))))]))
  /\ (forall before shape after t,
        text_attr shape = Some t ->
        (forall c, In c t -> isspace c = true) ->
        text_fragments (before ++ shape :: after) = text_fragments (before ++ after))
  /\ text_fragments [text_box (lit "  ")] = []
  /\ text_fragments [text_box hi_there] = [hi_there].
Proof.
  split; [| split; [| split]].
  - intros self. rewrite extract_all_text_ok. now rewrite flat_map_concat_map.
  - intros before shape after t Ht Hsp.
    rewrite !text_fragments_app. f_equal.
    unfold text_fragments; simpl. unfold has_text at 1.
    rewrite Ht, (strip_spaces t Hsp). reflexivity.
  - reflexivity.
  - reflexivity.
Qed.

Lemma all_text_fragments_witness :
  text_attr (text_box (lit "  ")) = Some (lit "  ")
  /\ (forall c, In c (lit "  ") -> isspace c = true)
  /\ text_fragments ([text_box (lit "a")] ++ text_box (lit "  ") :: [text_box (lit "b")])
     = text_fragments ([text_box (lit "a")] ++ [text_box (lit "b")]).
Proof.
  assert (Hsp : forall c, In c (lit "  ") -> isspace c = true).
  { intros c [<- | [<- | []]]; reflexivity. }
  split; [reflexivity | split; [exact Hsp |]].
  exact (proj1 (proj2 all_text_fragments) [text_box (lit "a")] (text_box (lit "  "))
               [text_box (lit "b")] (lit "  ") eq_refl Hsp).
Defined.

(** ** extract_slide_titles *)

Lemma title_placeholder_shape_ok (shape : Shape) (title : str) :
  title_placeholder_shape shape title
  = Ok (if is_title_placeholder shape
        then Break (if has_text shape then stripped shape else title)
        else Next title).
Proof.
  unfold title_placeholder_shape, is_placeholder, placeholder_format,
    is_title_placeholder.
  destruct (ph shape) as [p |]; simpl; [| reflexivity].
  destruct (type p =? 1)%Z; [| reflexivity].
  rewrite has_text_cond_ok; simpl.
  unfold has_text, stripped, text.
  destruct (text_attr shape) as [t |]; simpl; [| reflexivity].
  destruct (truthy (strip t)); reflexivity.
Qed.

Lemma title_loop_ok (l : list Shape) (title : str) :
  for_in l title_placeholder_shape title = Ok (title_scan l title).
Proof.
  unfold title_scan.
  induction l as [| shape r IH]; simpl; [reflexivity |].
  rewrite title_placeholder_shape_ok; simpl.
  destruct (is_title_placeholder shape); simpl; [reflexivity | exact IH].
Qed.

Lemma first_text_shape_ok (shape : Shape) (title : str) :
  first_text_shape shape title
  = Ok (if has_text shape then Break (first_line (stripped shape)) else Next title).
Proof.
  unfold first_text_shape. rewrite has_text_cond_ok; simpl.
  unfold has_text, stripped, text.
  destruct (text_attr shape) as [t |]; simpl; [| reflexivity].
  destruct (truthy (strip t)); reflexivity.
Qed.

Lemma first_text_loop_ok (l : list Shape) (title : str) :
  for_in l first_text_shape title = Ok (first_text_line l title).
Proof.
  unfold first_text_line.
  induction l as [| shape r IH]; simpl; [reflexivity |].
  rewrite first_text_shape_ok; simpl.
  destruct (has_text shape); simpl; [reflexivity | exact IH].
Qed.

Lemma slide_title_ok (slide : Slide) :
  slide_title slide
  = Ok (let title := title_scan (shapes slide) NO_TITLE in
        if PyStr.eqb title NO_TITLE
        then first_text_line (shapes slide) title
        else title).
Proof.
  unfold slide_title. rewrite title_loop_ok; simpl.
  destruct (PyStr.eqb (title_scan (shapes slide) NO_TITLE) NO_TITLE) eqn:E.
  - apply first_text_loop_ok.
  - reflexivity.
Qed.














Lemma titles_slide_ok (item : Z * Slide) (titles : list value) :
  titles_slide item titles = Ok (Next (titles ++ [title_entry item])).
Proof.
  destruct item as [i slide]. unfold titles_slide.
  rewrite slide_title_ok. reflexivity.
Qed.

Lemma flat_map_singleton {A B} (f : A -> B) (l : list A) :
  flat_map (fun x => [f x]) l = map f l.
Proof. induction l as [| x r IH]; simpl; [reflexivity | now rewrite IH]. Qed.

Lemma extract_slide_titles_ok (self : PowerPointExtractor) :
  extract_slide_titles self
  = Ok (VList (map title_entry (enumerate 1 (slides (presentation self))))).
Proof.
  unfold extract_slide_titles.
  rewrite (for_in_append (fun item => [title_entry item]) titles_slide
             titles_slide_ok); simpl.
  now rewrite flat_map_singleton.
Qed.

(** ** extract_images_info *)

Lemma images_shape_ok (shape : Shape) (slide_images : list value) :
  images_shape shape slide_images
  = Ok (Next (slide_images ++ (if is_picture shape then [image_info shape] else []))).
Proof.
  unfold images_shape, is_picture.
  destruct (enum_value (shape_type shape) =? 13)%Z; [reflexivity |].
  now rewrite app_nil_r.
Qed.

Lemma filter_nil_existsb {A} (p : A -> bool) (l : list A) :
  existsb p l = negb (match filter p l with [] => true | _ :: _ => false end).
Proof.
  induction l as [| x r IH]; simpl; [reflexivity |].
  destruct (p x); simpl; [reflexivity | exact IH].
Qed.

Lemma images_slide_ok (item : Z * Slide) (images_info : list value) :
  images_slide item images_info
  = Ok (Next (images_info ++ (if has_picture item then [images_entry item] else []))).
Proof.
  destruct item as [i slide]. unfold images_slide.
  rewrite (for_in_append (fun shape => if is_picture shape then [image_info shape] else [])
             images_shape images_shape_ok); simpl.
  rewrite flat_map_filter_map.
  unfold has_picture, images_entry, pictures; simpl.
  rewrite filter_nil_existsb.
  destruct (filter is_picture (shapes slide)) as [| p r]; simpl.
  - now rewrite app_nil_r.
  - unfold len; simpl. now rewrite length_map.
Qed.

Lemma extract_images_info_ok (self : PowerPointExtractor) :
  extract_images_info self
  = Ok (VList (map images_entry
                   (filter has_picture (enumerate 1 (slides (presentation self)))))).
Proof.
  unfold extract_images_info.
  rewrite (for_in_append (fun item => if has_picture item then [images_entry item] else [])
             images_slide images_slide_ok); simpl.
  now rewrite flat_map_filter_map.
Qed.

(** C5: [extract_images_info] returns one entry per slide that has at least
    one shape of the picture type, in slide order, and none for a slide
    without pictures, so it never has more entries than there are slides.
    An entry holds the slide's ordinal, the name, width, height, left and
    top of every picture of the slide in shape order, and the number of
    those pictures. *)
Theorem images_only_for_slides_with_pictures (self : PowerPointExtractor) :
  exists images_info,
    extract_images_info self = Ok (VList images_info)
    /\ images_info
       = map (fun item =>
                dict [
                  ("slide_number", VInt (fst item));
                  ("images",
                   VList (map (fun shape =>
                                 dict [
                                   ("shape_name", VStr (name shape));
                                   ("width", VInt (width shape));
                                   ("height", VInt (height shape));
                                   ("left", VInt (left shape));
                                   ("top", VInt (top shape))])
                              (filter is_picture (shapes (snd item)))));
                  ("image_count",
                   VInt (len (filter is_picture (shapes (snd item)))))])
             (filter (fun item => existsb is_picture (shapes (snd item)))
                     (enumerate 1 (slides (presentation self))))
    /\ (List.length images_info <= List.length (slides (presentation self)))%nat.
Proof.
  eexists. split; [apply extract_images_info_ok |]. split; [reflexivity |].
  rewrite length_map.
  rewrite <- (enumerate_length (slides (presentation self)) 1).
  apply filter_length_le.
Qed.

(** ** extract_notes *)

Lemma notes_shape_ok (shape : Shape) (notes_text : str) :
  notes_shape shape notes_text
  = Ok (Next (notes_text
              ++ (if has_text shape then stripped shape ++ lit " " else []))).
Proof.
  unfold notes_shape. rewrite has_text_cond_ok; simpl.
  unfold has_text, stripped, text.
  destruct (text_attr shape) as [t |]; simpl.
  - destruct (truthy (strip t)); simpl; [reflexivity | now rewrite app_nil_r].
  - now rewrite app_nil_r.
Qed.

Lemma flat_map_fragments (sfx : str) (l : list Shape) :
  flat_map (fun shape => if has_text shape then stripped shape ++ sfx else []) l
  = List.concat (map (fun fragment => fragment ++ sfx) (text_fragments l)).
Proof.
  unfold text_fragments.
  induction l as [| shape r IH]; simpl; [reflexivity |].
  destruct (has_text shape); simpl; now rewrite IH.
Qed.

Lemma notes_slide_text_ok (slide : Slide) :
  notes_slide_text slide = Ok (notes_text_of slide).
Proof.
  unfold notes_slide_text, notes_text_of.
  destruct (notes_slide slide) as [ns |]; [| reflexivity].
  rewrite (for_in_append
             (fun shape => if has_text shape then stripped shape ++ lit " " else [])
             notes_shape notes_shape_ok); simpl.
  now rewrite flat_map_fragments.
Qed.

Lemma notes_slide_step_ok (item : Z * Slide) (notes_info : list value) :
  notes_slide_step item notes_info
  = Ok (Next (notes_info ++ (if has_notes item then [notes_entry item] else []))).
Proof.
  destruct item as [i slide]. unfold notes_slide_step.
  rewrite notes_slide_text_ok; simpl. unfold has_notes; simpl.
  destruct (truthy (strip (notes_text_of slide))); [reflexivity |].
  now rewrite app_nil_r.
Qed.

Lemma extract_notes_ok (self : PowerPointExtractor) :
  extract_notes self
  = Ok (VList (map notes_entry
                   (filter has_notes (enumerate 1 (slides (presentation self)))))).
Proof.
  unfold extract_notes.
  rewrite (for_in_append (fun item => if has_notes item then [notes_entry item] else [])
             notes_slide_step notes_slide_step_ok); simpl.
  now rewrite flat_map_filter_map.
Qed.

Lemma text_fragments_none (l : list Shape) :
  (forall shape, In shape l -> has_text shape = false) -> text_fragments l = [].
Proof.
  unfold text_fragments.
  induction l as [| shape r IH]; simpl; intros H; [reflexivity |].
  rewrite (H shape (or_introl eq_refl)). apply IH. intros; apply H; now right.
Qed.

Lemma has_text_spaces (shape : Shape) :
  (forall t, text_attr shape = Some t -> forall c, In c t -> isspace c = true) ->
  has_text shape = false.
Proof.
  unfold has_text. destruct (text_attr shape) as [t |]; [| reflexivity].
  intros H. now rewrite (strip_spaces t (H t eq_refl)).
Qed.

Lemma notes_text_truthy (l : list Shape) :
  truthy (strip (List.concat (map (fun fragment => fragment ++ lit " ")
                                  (text_fragments l))))
  = existsb has_text l.
Proof.
  unfold text_fragments.
  induction l as [| shape r IH]; simpl; [reflexivity |].
  destruct (has_text shape) eqn:E; simpl; [| exact IH].
  unfold has_text in E. unfold stripped.
  destruct (text_attr shape) as [t |]; [| discriminate].
  destruct (strip t) as [| c f] eqn:S; [discriminate |].
  simpl. now rewrite (strip_cons _ _ (strip_head t _ _ S)).
Qed.

(** C6: [extract_notes] returns, in slide order, an entry for exactly the
    slides whose notes text is not empty once trimmed, where the notes text
    is the trimmed non-empty text of every shape of the slide's notes slide,
    in shape order, each followed by one space; the entry holds the ordinal
    and that text trimmed.  A slide without a notes slide, and a slide whose
    notes shapes hold only whitespace, get no entry; a slide gets an entry
    exactly when some shape of its notes slide has a text that is not empty
    once trimmed. *)
Theorem notes_only_for_slides_with_text :
  (forall self,
     extract_notes self
     = Ok (VList
             (map (fun item =>
                     dict [
                       ("slide_number", VInt (fst item));
                       ("notes", VStr (strip (notes_text_of (snd item))))])
                  (filter (fun item => truthy (strip (notes_text_of (snd item))))
                          (enumerate 1 (slides (presentation self)))))))
  /\ (forall slide ns,
        notes_slide slide = Some ns ->
        notes_text_of slide
        = List.concat (map (fun shape => stripped shape ++ lit " ")
                           (filter has_text (notes_shapes ns))))
  /\ (forall slide,
        notes_slide slide = None ->
        truthy (strip (notes_text_of slide)) = false)
  /\ (forall slide ns,
        notes_slide slide = Some ns ->
        (forall shape t, In shape (notes_shapes ns) -> text_attr shape = Some t ->
                         forall c, In c t -> isspace c = true) ->
        truthy (strip (notes_text_of slide)) = false)
  /\ (forall slide,
        truthy (strip (notes_text_of slide))
        = match notes_slide slide with
          | Some ns => existsb has_text (notes_shapes ns)
          | None => false
          end).
Proof.
  split; [| split; [| split; [| split]]].
  - intros self. apply extract_notes_ok.
  - intros slide ns Hns. unfold notes_text_of, text_fragments. rewrite Hns.
    now rewrite map_map.
  - intros slide Hns. unfold notes_text_of. now rewrite Hns.
  - intros slide ns Hns Hsp. unfold notes_text_of. rewrite Hns.
    rewrite text_fragments_none; [reflexivity |].
    intros shape Hin. apply has_text_spaces. intros t Ht. now apply (Hsp shape t).
  - intros slide. unfold notes_text_of.
    destruct (notes_slide slide) as [ns |]; [| reflexivity].
    apply notes_text_truthy.
Qed.

Lemma notes_only_for_slides_with_text_witness :
  notes_slide (slide_with_notes (Some blank_notes)) = Some blank_notes
  /\ (forall shape t, In shape (notes_shapes blank_notes) -> text_attr shape = Some t ->
                      forall c, In c t -> isspace c = true)
  /\ notes_slide (slide_with_notes None) = None
  /\ truthy (strip (notes_text_of (slide_with_notes (Some blank_notes)))) = false
  /\ truthy (strip (notes_text_of (slide_with_notes None))) = false.
Proof.
  assert (H : forall shape t, In shape (notes_shapes blank_notes) ->
                              text_attr shape = Some t ->
                              forall c, In c t -> isspace c = true).
  { intros shape t [<- | [<- | []]] Ht; simpl in Ht; [| discriminate].
    injection Ht as <-. intros c [<- | [<- | []]]; reflexivity. }
  split; [reflexivity | split; [exact H | split; [reflexivity | split]]].
  - exact (proj1 (proj2 (proj2 (proj2 notes_only_for_slides_with_text)))
             (slide_with_notes (Some blank_notes)) blank_notes eq_refl H).
  - exact (proj1 (proj2 (proj2 notes_only_for_slides_with_text))
             (slide_with_notes None) eq_refl).
Defined.

(** ** extract_slide_layout_info *)

Lemma layout_shape_ok (shape : Shape) (shape_infos : list value) :
  layout_shape shape shape_infos = Ok (Next (shape_infos ++ [shape_info shape])).
Proof.
  unfold layout_shape. rewrite has_text_cond_ok. reflexivity.
Qed.

Lemma layout_slide_ok (item : Z * Slide) (layout_info : list value) :
  layout_slide item layout_info = Ok (Next (layout_info ++ [layout_entry item])).
Proof.
  destruct item as [i slide]. unfold layout_slide.
  rewrite (for_in_append (fun shape => [shape_info shape]) layout_shape
             layout_shape_ok); simpl.
  now rewrite flat_map_singleton.
Qed.

Lemma extract_slide_layout_info_ok (self : PowerPointExtractor) :
  extract_slide_layout_info self
  = Ok (VList (map layout_entry (enumerate 1 (slides (presentation self))))).
Proof.
  unfold extract_slide_layout_info.
  rewrite (for_in_append (fun item => [layout_entry item]) layout_slide
             layout_slide_ok); simpl.
  now rewrite flat_map_singleton.
Qed.

(** ** extract_all_information *)

Lemma extract_all_information_ok (self : PowerPointExtractor) :
  let numbered := enumerate 1 (slides (presentation self)) in
  extract_all_information self
  = Ok (dict [
      ("basic_info", dict [
         ("file_path", VStr (file_path self));
         ("total_slides", VInt (len (slides (presentation self))));
         ("slide_dimensions", dict [
            ("width", VInt (slide_width (presentation self)));
            ("height", VInt (slide_height (presentation self)))])]);
      ("titles", VList (map title_entry numbered));
      ("text_content", dict [
         ("slides", VList (map text_entry numbered));
         ("all_text_combined",
          VList (map VStr (flat_map (fun slide => text_fragments (shapes slide))
                                    (slides (presentation self)))))]);
      ("images_info", VList (map images_entry (filter has_picture numbered)));
      ("notes", VList (map notes_entry (filter has_notes numbered)));
      ("layout_info", VList (map layout_entry numbered))]).
Proof.
  unfold extract_all_information.
  rewrite extract_slide_titles_ok, extract_all_text_ok, extract_images_info_ok,
    extract_notes_ok, extract_slide_layout_info_ok.
  reflexivity.
Qed.

(** ** Ordinals *)

Lemma enumerate_fst {A} (l : list A) (k : nat) :
  map fst (enumerate (Z.of_nat k) l) = map Z.of_nat (seq k (List.length l)).
Proof.
  revert k; induction l as [| x r IH]; intros k; simpl; [reflexivity |].
  f_equal. rewrite <- IH. now rewrite Nat2Z.inj_succ, Z.add_1_r.
Qed.

Lemma enumerate_ordinals {A} (l : list A) :
  map fst (enumerate 1 l) = ordinals (List.length l).
Proof. exact (enumerate_fst l 1). Qed.

Lemma enumerate_In {A} (l : list A) (k i : Z) (x : A) :
  In (i, x) (enumerate k l)
  <-> (k <= i)%Z /\ nth_error l (Z.to_nat (i - k)) = Some x.
Proof.
  revert k; induction l as [| y r IH]; intros k; simpl.
  - split; [intros [] | intros [_ H]]. now destruct (Z.to_nat (i - k)).
  - rewrite IH. split.
    + intros [E | [Hle Hnth]].
      * injection E as <- <-. split; [lia |]. now rewrite Z.sub_diag.
      * split; [lia |].
        replace (Z.to_nat (i - k)) with (S (Z.to_nat (i - (k + 1)))) by lia.
        exact Hnth.
    + intros [Hle Hnth].
      destruct (Z.eq_dec k i) as [<- | Hne].
      * left. rewrite Z.sub_diag in Hnth. simpl in Hnth. congruence.
      * right. split; [lia |].
        replace (Z.to_nat (i - k)) with (S (Z.to_nat (i - (k + 1)))) in Hnth by lia.
        exact Hnth.
Qed.

Lemma slide_numbers_of {A} (entry : Z * A -> value) (items : list (Z * A)) :
  (forall item, dict_get "slide_number" (entry item) = Some (VInt (fst item))) ->
  map (dict_get "slide_number") (map entry items)
  = map (fun i => Some (VInt i)) (map fst items).
Proof.
  intros H. rewrite !map_map. apply map_ext. exact H.
Qed.

(** C3: for a document with N slides, [extract_slide_titles], the list under
    ["slides"] of [extract_all_text] and [extract_slide_layout_info] each
    return exactly N entries whose ["slide_number"] fields are 1, 2, ..., N
    in order.  The ordinal of a slide is its position in the document
    (counted from 1), and every section of the report, the ones of
    [extract_images_info] and [extract_notes] included, tags the entry of a
    slide with that same ordinal. *)
Theorem slide_numbers_1_to_N (self : PowerPointExtractor) :
  let N := List.length (slides (presentation self)) in
  let numbered := enumerate 1 (slides (presentation self)) in
  (exists titles,
     extract_slide_titles self = Ok (VList titles)
     /\ List.length titles = N
     /\ map (dict_get "slide_number") titles
        = map (fun i => Some (VInt i)) (ordinals N))
  /\ (exists entries combined,
        extract_all_text self
        = Ok (dict [("slides", VList entries); ("all_text_combined", combined)])
        /\ List.length entries = N
        /\ map (dict_get "slide_number") entries
           = map (fun i => Some (VInt i)) (ordinals N))
  /\ (exists layouts,
        extract_slide_layout_info self = Ok (VList layouts)
        /\ List.length layouts = N
        /\ map (dict_get "slide_number") layouts
           = map (fun i => Some (VInt i)) (ordinals N))
  /\ (forall i slide,
        In (i, slide) numbered
        <-> (1 <= i)%Z
            /\ nth_error (slides (presentation self)) (Z.to_nat (i - 1)) = Some slide)
  /\ (exists report combined,
        extract_all_information self = Ok report
        /\ dict_get "titles" report = Some (VList (map title_entry numbered))
        /\ dict_get "text_content" report
           = Some (dict [("slides", VList (map text_entry numbered));
                         ("all_text_combined", combined)])
        /\ dict_get "images_info" report
           = Some (VList (map images_entry (filter has_picture numbered)))
        /\ dict_get "notes" report
           = Some (VList (map notes_entry (filter has_notes numbered)))
        /\ dict_get "layout_info" report
           = Some (VList (map layout_entry numbered)))
  /\ (forall item,
        dict_get "slide_number" (title_entry item) = Some (VInt (fst item))
        /\ dict_get "slide_number" (text_entry item) = Some (VInt (fst item))
        /\ dict_get "slide_number" (images_entry item) = Some (VInt (fst item))
        /\ dict_get "slide_number" (notes_entry item) = Some (VInt (fst item))
        /\ dict_get "slide_number" (layout_entry item) = Some (VInt (fst item))).
Proof.
  intros N numbered.
  assert (Hlen : forall entry : Z * Slide -> value,
             List.length (map entry numbered) = N).
  { intros entry. rewrite length_map. apply enumerate_length. }
  assert (Hnum : forall entry : Z * Slide -> value,
             (forall item, dict_get "slide_number" (entry item) = Some (VInt (fst item))) ->
             map (dict_get "slide_number") (map entry numbered)
             = map (fun i => Some (VInt i)) (ordinals N)).
  { intros entry H. rewrite (slide_numbers_of entry numbered H).
    unfold numbered, N. now rewrite enumerate_ordinals. }
  split; [| split; [| split; [| split; [| split]]]].
  - eexists. split; [apply extract_slide_titles_ok |].
    split; [apply Hlen | apply Hnum; reflexivity].
  - do 2 eexists. split; [apply extract_all_text_ok |].
    split; [apply Hlen | apply Hnum; reflexivity].
  - eexists. split; [apply extract_slide_layout_info_ok |].
    split; [apply Hlen | apply Hnum; reflexivity].
  - intros i slide. apply enumerate_In.
  - do 2 eexists. split; [apply extract_all_information_ok |].
    repeat split.
  - intros item. repeat split.
Qed.

Lemma extract_basic_info_ok (self : PowerPointExtractor) :
  exists basic_info, extract_basic_info self = Ok basic_info.
Proof. eexists. reflexivity. Qed.

(** C7: [extract_all_information] returns a mapping with exactly the keys
    basic_info, titles, text_content, images_info, notes and layout_info;
    every operation returns, and the value under each key is what the
    operation of that name returns on the same document: the report is the
    six results assembled. *)
Theorem all_information_assembles_sections (self : PowerPointExtractor) :
  exists basic_info titles text_content images_info notes layout_info report,
    extract_basic_info self = Ok basic_info
    /\ extract_slide_titles self = Ok titles
    /\ extract_all_text self = Ok text_content
    /\ extract_images_info self = Ok images_info
    /\ extract_notes self = Ok notes
    /\ extract_slide_layout_info self = Ok layout_info
    /\ extract_all_information self = Ok report
    /\ report = dict [
         ("basic_info", basic_info);
         ("titles", titles);
         ("text_content", text_content);
         ("images_info", images_info);
         ("notes", notes);
         ("layout_info", layout_info)]
    /\ keys report = report_keys
    /\ NoDup report_keys
    /\ dict_get "basic_info" report = Some basic_info
    /\ dict_get "titles" report = Some titles
    /\ dict_get "text_content" report = Some text_content
    /\ dict_get "images_info" report = Some images_info
    /\ dict_get "notes" report = Some notes
    /\ dict_get "layout_info" report = Some layout_info.
Proof.
  do 7 eexists.
  split; [reflexivity |].
  split; [apply extract_slide_titles_ok |].
  split; [apply extract_all_text_ok |].
  split; [apply extract_images_info_ok |].
  split; [apply extract_notes_ok |].
  split; [apply extract_slide_layout_info_ok |].
  split; [apply extract_all_information_ok |].
  split; [reflexivity |].
  split; [reflexivity |].
  split.
  - unfold report_keys.
    repeat (constructor; [simpl; intuition discriminate |]). constructor.
  - repeat split.
Qed.

(** ** Shapes without a text attribute *)





(** ** save_to_json *)

Lemma rfind_from_spec (c : N) (s : str) (i last : Z) :
  (~ In c s /\ rfind_from c s i last = last)
  \/ (exists a b, s = a ++ c :: b /\ ~ In c b
                  /\ rfind_from c s i last = (i + Z.of_nat (List.length a))%Z).
Proof.
  revert i last; induction s as [| x r IH]; intros i last; simpl.
  - left. split; [intros [] | reflexivity].
  - destruct (x =? c)%N eqn:Exc.
    + apply N.eqb_eq in Exc. subst x.
      destruct (IH (i + 1)%Z i) as [[Hnot E] | [a [b [Hs [Hb E]]]]].
      * right. exists [], r. simpl. split; [reflexivity |].
        split; [exact Hnot | lia].
      * right. exists (c :: a), b. simpl. rewrite Hs at 1.
        split; [reflexivity |]. split; [exact Hb | lia].
    + apply N.eqb_neq in Exc.
      destruct (IH (i + 1)%Z last) as [[Hnot E] | [a [b [Hs [Hb E]]]]].
      * left. split; [| exact E].
        intros [H | H]; [now apply Exc | now apply Hnot].
      * right. exists (x :: a), b. simpl. rewrite Hs at 1.
        split; [reflexivity |]. split; [exact Hb | lia].
Qed.

Lemma basename_no_sep (p : str) : ~ In os_path.sep (os_path.basename p).
Proof.
  unfold os_path.basename, rfind, slice_from.
  destruct (rfind_from_spec os_path.sep p 0 (-1))
    as [[Hnot E] | [a [b [Hs [Hb E]]]]]; rewrite E.
  - exact Hnot.
  - replace (Z.to_nat (0 + Z.of_nat (List.length a) + 1))
      with (List.length a + 1)%nat by lia.
    rewrite Hs. rewrite skipn_app, skipn_all2 by lia.
    replace (List.length a + 1 - List.length a)%nat with 1%nat by lia.
    exact Hb.
Qed.

Lemma splitext_fst_incl (p : str) (c : N) :
  In c (fst (os_path.splitext p)) -> In c p.
Proof.
  unfold os_path.splitext.
  destruct (rfind os_path.extsep p >? rfind os_path.sep p)%Z; [| auto].
  destruct (existsb _ _); [| auto].
  simpl. unfold slice_to. intros H.
  rewrite <- (firstn_skipn (Z.to_nat (rfind os_path.extsep p)) p).
  apply in_or_app. now left.
Qed.

Lemma stem_no_sep (self : PowerPointExtractor) : ~ In os_path.sep (stem self).
Proof.
  intros H. apply splitext_fst_incl in H. exact (basename_no_sep _ H).
Qed.

Lemma default_output_file_ok (self : PowerPointExtractor) :
  default_output_file self
  = lit "slides/" ++ stem self ++ lit "_extracted_info.json".
Proof.
  unfold default_output_file. fold (stem self).
  pose proof (stem_no_sep self) as Hno.
  unfold os_path.join.
  destruct (stem self) as [| x r]; [reflexivity |].
  simpl startswith.
  destruct (N.eqb_spec x os_path.sep) as [-> | Hne].
  - exfalso. apply Hno. now left.
  - reflexivity.
Qed.

Lemma save_to_json_written (self : PowerPointExtractor) (output_file : option str)
  (path : str) (w : World) :
  path = match output_file with
         | Some p => if negb (truthy p) then default_output_file self else p
         | None => default_output_file self
         end ->
  can_open w path = true ->
  exists report w',
    extract_all_information self = Ok report
    /\ save_to_json self output_file w = Ok (path, w')
    /\ files w' = (path, report) :: files w.
Proof.
  intros -> Hopen. unfold save_to_json, open_w.
  rewrite extract_all_information_ok; simpl.
  rewrite Hopen; simpl.
  do 2 eexists. split; [reflexivity |]. split; reflexivity.
Qed.

(** C9, as the code has it: called without an output path, [save_to_json]
    writes the report to, and returns, the directory "slides" joined with
    the stem of the input file's name followed by "_extracted_info.json"
    (slides/deck_extracted_info.json for /tmp/deck.pptx), provided the file
    can be opened; called with an output path that is not the empty string,
    it writes to and returns that path unchanged, provided it can be opened;
    called with the empty string as output path, it does as without an
    output path. *)
Theorem save_to_json_path :
  (forall self w,
     can_open w (lit "slides/" ++ stem self ++ lit "_extracted_info.json") = true ->
     exists report w',
       extract_all_information self = Ok report
       /\ save_to_json self None w
          = Ok (lit "slides/" ++ stem self ++ lit "_extracted_info.json", w')
       /\ files w'
          = (lit "slides/" ++ stem self ++ lit "_extracted_info.json", report)
            :: files w)
  /\ (forall self,
        os_path.join (lit "slides") (stem self ++ lit "_extracted_info.json")
        = lit "slides/" ++ stem self ++ lit "_extracted_info.json")
  /\ stem deck = lit "deck"
  /\ (exists w', save_to_json deck None empty_world
                 = Ok (lit "slides/deck_extracted_info.json", w'))
  /\ (forall self path w,
        path <> [] ->
        can_open w path = true ->
        exists report w',
          extract_all_information self = Ok report
          /\ save_to_json self (Some path) w = Ok (path, w')
          /\ files w' = (path, report) :: files w)
  /\ (forall self w,
        can_open w (lit "slides/" ++ stem self ++ lit "_extracted_info.json") = true ->
        exists report w',
          extract_all_information self = Ok report
          /\ save_to_json self (Some []) w
             = Ok (lit "slides/" ++ stem self ++ lit "_extracted_info.json", w')
          /\ files w'
             = (lit "slides/" ++ stem self ++ lit "_extracted_info.json", report)
               :: files w).
Proof.
  split; [| split; [| split; [| split; [| split]]]].
  - intros self w Hopen.
    apply save_to_json_written; [| exact Hopen].
    now rewrite default_output_file_ok.
  - intros self. apply default_output_file_ok.
  - reflexivity.
  - eexists. reflexivity.
  - intros self path w Hne Hopen.
    apply save_to_json_written; [| exact Hopen].
    destruct path; [contradiction | reflexivity].
  - intros self w Hopen.
    apply save_to_json_written; [| exact Hopen].
    simpl. now rewrite default_output_file_ok.
Qed.

Lemma save_to_json_path_witness :
  (can_open empty_world (lit "slides/" ++ stem deck ++ lit "_extracted_info.json") = true
   /\ exists report w',
        extract_all_information deck = Ok report
        /\ save_to_json deck None empty_world
           = Ok (lit "slides/" ++ stem deck ++ lit "_extracted_info.json", w')
        /\ files w'
           = (lit "slides/" ++ stem deck ++ lit "_extracted_info.json", report)
             :: files empty_world)
  /\ (PyStr.eqb (lit "out.json") [] = false
      /\ can_open empty_world (lit "out.json") = true
      /\ exists report w',
           extract_all_information deck = Ok report
           /\ save_to_json deck (Some (lit "out.json")) empty_world
              = Ok (lit "out.json", w')
           /\ files w' = (lit "out.json", report) :: files empty_world)
  /\ (exists report w',
        extract_all_information report_deck = Ok report
        /\ save_to_json report_deck (Some []) empty_world
           = Ok (lit "slides/" ++ stem report_deck ++ lit "_extracted_info.json", w')
        /\ files w'
           = (lit "slides/" ++ stem report_deck ++ lit "_extracted_info.json", report)
             :: files empty_world).
Proof.
  split; [| split].
  - split; [reflexivity |].
    exact (proj1 save_to_json_path deck empty_world eq_refl).
  - split; [reflexivity |]. split; [reflexivity |].
    refine (proj1 (proj2 (proj2 (proj2 (proj2 save_to_json_path))))
              deck (lit "out.json") empty_world _ eq_refl).
    discriminate.
  - exact (proj2 (proj2 (proj2 (proj2 (proj2 save_to_json_path))))
             report_deck empty_world eq_refl).
Defined.

(** C9 fails as stated: an output path that is given but empty is not used
    and returned unchanged; the path derived from the input file is. *)
Lemma empty_output_path_is_replaced :
  (exists w', save_to_json deck (Some []) empty_world
              = Ok (lit "slides/deck_extracted_info.json", w'))
  /\ PyStr.eqb (lit "slides/deck_extracted_info.json") [] = false.
Proof. split; [eexists |]; reflexivity. Qed.

(** ** The command line driver *)

Lemma prints_nil (w : World) : prints [] w = w.
Proof. destruct w. unfold prints; simpl. now rewrite app_nil_r. Qed.

Lemma prints_prints (l1 l2 : list str) (w : World) :
  prints l2 (prints l1 w) = prints (l1 ++ l2) w.
Proof. unfold prints; simpl. now rewrite app_assoc. Qed.

Lemma print_prints (line : str) (w : World) : print line w = prints [line] w.
Proof. reflexivity. Qed.

Lemma mbind_ret {A B} (m : M A) (k : A -> M B) (w w' : World) (a : A) :
  m w = (inr a, w') -> mbind m k w = k a w'.
Proof. intros H. unfold mbind. now rewrite H. Qed.

Lemma mbind_raise {A B} (m : M A) (k : A -> M B) (w w' : World) (e : exception) :
  m w = (inl e, w') -> mbind m k w = (inl e, w').
Proof. intros H. unfold mbind. now rewrite H. Qed.

Lemma mfor_prints {A} (entry : A -> value) (lines : A -> list str)
  (body : value -> M unit) :
  (forall item w, body (entry item) w = (inr tt, prints (lines item) w)) ->
  forall items w,
    mfor (map entry items) body w = (inr tt, prints (flat_map lines items) w).
Proof.
  intros Hbody items; induction items as [| item r IH]; intros w; simpl.
  - unfold mret. now rewrite prints_nil.
  - rewrite (mbind_ret _ _ _ _ _ (Hbody item w)).
    rewrite IH. now rewrite prints_prints.
Qed.

Lemma init_loaded (env : Env) (path : str) (p : Presentation) (w : World) :
  open_presentation env path = inr p ->
  __init__ env path w
  = (inr {| file_path := path; presentation := p |},
     prints [lit "Successfully loaded PowerPoint file: " ++ path] w).
Proof.
  intros H. unfold __init__, load_presentation. rewrite H. reflexivity.
Qed.

Lemma init_failed (env : Env) (path msg : str) (w : World) :
  open_presentation env path = inl msg ->
  __init__ env path w
  = (inl (Exception (lit "Error loading PowerPoint file: " ++ msg)), w).
Proof.
  intros H. unfold __init__, load_presentation. rewrite H. reflexivity.
Qed.

Lemma print_slide_text_ok (env : Env) (item : Z * Slide) (w : World) :
  print_slide_text env (text_entry item) w = (inr tt, prints (text_lines item) w).
Proof.
  transitivity
    (@inr exception unit tt,
     print (join (lit " ") (text_fragments (shapes (snd item))))
           (print ([newline] ++ lit "Slide " ++ str_of_int (fst item) ++ lit ":") w)).
  - reflexivity.
  - now rewrite !print_prints, prints_prints.
Qed.

Lemma print_slide_title_ok (env : Env) (item : Z * Slide) (w : World) :
  print_slide_title env (title_entry item) w
  = (inr tt, prints [title_line item] w).
Proof. reflexivity. Qed.

Lemma text_branch_ok (env : Env) (self : PowerPointExtractor) (w : World) :
  (text_info <~ call (extract_all_text self) ;;
   _ <~ mprint ([newline] ++ lit "=== EXTRACTED TEXT ===") ;;
   slides_value <~ getitem text_info "slides" ;;
   items <~ iter slides_value ;;
   mfor items (print_slide_text env)) w
  = (inr tt,
     prints (([newline] ++ lit "=== EXTRACTED TEXT ===")
             :: flat_map text_lines (enumerate 1 (slides (presentation self)))) w).
Proof.
  erewrite mbind_ret by (unfold call; rewrite extract_all_text_ok; reflexivity).
  erewrite mbind_ret by reflexivity.
  erewrite mbind_ret by reflexivity.
  erewrite mbind_ret by reflexivity.
  rewrite (mfor_prints text_entry text_lines _ (print_slide_text_ok env)).
  rewrite print_prints, prints_prints. reflexivity.
Qed.

Lemma titles_branch_ok (env : Env) (self : PowerPointExtractor) (w : World) :
  (titles <~ call (extract_slide_titles self) ;;
   _ <~ mprint ([newline] ++ lit "=== SLIDE TITLES ===") ;;
   items <~ iter titles ;;
   mfor items (print_slide_title env)) w
  = (inr tt,
     prints (([newline] ++ lit "=== SLIDE TITLES ===")
             :: map title_line (enumerate 1 (slides (presentation self)))) w).
Proof.
  erewrite mbind_ret by (unfold call; rewrite extract_slide_titles_ok; reflexivity).
  erewrite mbind_ret by reflexivity.
  erewrite mbind_ret by reflexivity.
  rewrite (mfor_prints title_entry (fun item => [title_line item]) _
             (print_slide_title_ok env)).
  rewrite print_prints, prints_prints, flat_map_singleton. reflexivity.
Qed.

Lemma save_to_json_result (self : PowerPointExtractor) (output_file : option str)
  (w : World) :
  exists report,
    extract_all_information self = Ok report
    /\ save_to_json self output_file w
       = if can_open w (output_path self output_file)
         then Ok (output_path self output_file,
                  print (lit "Extracted information saved to: "
                         ++ output_path self output_file)
                        (json_dump report (output_path self output_file) w))
         else Raise OSError.
Proof.
  eexists. split; [apply extract_all_information_ok |].
  unfold save_to_json, open_w. rewrite extract_all_information_ok.
  fold (output_path self output_file); simpl.
  destruct (can_open w (output_path self output_file)); reflexivity.
Qed.

Lemma summary_ok (env : Env) (self : PowerPointExtractor) (path : str) (w : World) :
  (basic_info <~ call (extract_basic_info self) ;;
   _ <~ mprint ([newline] ++ lit "=== SUMMARY ===") ;;
   fp <~ getitem basic_info "file_path" ;;
   _ <~ mprint (lit "File: " ++ format env fp) ;;
   total <~ getitem basic_info "total_slides" ;;
   _ <~ mprint (lit "Total slides: " ++ format env total) ;;
   dims <~ getitem basic_info "slide_dimensions" ;;
   w0 <~ getitem dims "width" ;;
   dims' <~ getitem basic_info "slide_dimensions" ;;
   h <~ getitem dims' "height" ;;
   _ <~ mprint (lit "Dimensions: " ++ format env w0 ++ lit " x " ++ format env h) ;;
   mprint (lit "Full extraction saved to: " ++ path)) w
  = (inr tt, prints (summary_lines self path) w).
Proof.
  transitivity
    (@inr exception unit tt,
     print (nth 4 (summary_lines self path) [])
       (print (nth 3 (summary_lines self path) [])
          (print (nth 2 (summary_lines self path) [])
             (print (nth 1 (summary_lines self path) [])
                (print (nth 0 (summary_lines self path) []) w))))).
  - reflexivity.
  - rewrite !print_prints, !prints_prints. reflexivity.
Qed.

Lemma default_branch_ok (env : Env) (self : PowerPointExtractor)
  (output_file : option str) (w : World) :
  exists report,
    extract_all_information self = Ok report
    /\ (output_file' <~ call_save self output_file ;;
        basic_info <~ call (extract_basic_info self) ;;
        _ <~ mprint ([newline] ++ lit "=== SUMMARY ===") ;;
        fp <~ getitem basic_info "file_path" ;;
        _ <~ mprint (lit "File: " ++ format env fp) ;;
        total <~ getitem basic_info "total_slides" ;;
        _ <~ mprint (lit "Total slides: " ++ format env total) ;;
        dims <~ getitem basic_info "slide_dimensions" ;;
        w0 <~ getitem dims "width" ;;
        dims' <~ getitem basic_info "slide_dimensions" ;;
        h <~ getitem dims' "height" ;;
        _ <~ mprint (lit "Dimensions: " ++ format env w0 ++ lit " x " ++ format env h) ;;
        mprint (lit "Full extraction saved to: " ++ output_file')) w
       = if can_open w (output_path self output_file)
         then (inr tt,
               prints ((lit "Extracted information saved to: "
                        ++ output_path self output_file)
                       :: summary_lines self (output_path self output_file))
                      (json_dump report (output_path self output_file) w))
         else (inl (Raised OSError), w).
Proof.
  destruct (save_to_json_result self output_file w) as [report [Hrep Hsave]].
  exists report. split; [exact Hrep |].
  destruct (can_open w (output_path self output_file)) eqn:Hopen.
  - erewrite mbind_ret by (unfold call_save; rewrite Hsave; reflexivity).
    rewrite summary_ok. now rewrite print_prints, prints_prints.
  - erewrite mbind_raise by (unfold call_save; rewrite Hsave; reflexivity).
    reflexivity.
Qed.

Lemma main_try_loaded (env : Env) (args : Args) (p : Presentation) (w : World) :
  open_presentation env (arg_file_path args) = inr p ->
  main_try env args w
  = (fun extractor : PowerPointExtractor =>
       if arg_text_only args then
         text_info <~ call (extract_all_text extractor) ;;
         _ <~ mprint ([newline] ++ lit "=== EXTRACTED TEXT ===") ;;
         slides_value <~ getitem text_info "slides" ;;
         items <~ iter slides_value ;;
         mfor items (print_slide_text env)
       else if arg_titles_only args then
         titles <~ call (extract_slide_titles extractor) ;;
         _ <~ mprint ([newline] ++ lit "=== SLIDE TITLES ===") ;;
         items <~ iter titles ;;
         mfor items (print_slide_title env)
       else
         output_file <~ call_save extractor (arg_output args) ;;
         basic_info <~ call (extract_basic_info extractor) ;;
         _ <~ mprint ([newline] ++ lit "=== SUMMARY ===") ;;
         fp <~ getitem basic_info "file_path" ;;
         _ <~ mprint (lit "File: " ++ format env fp) ;;
         total <~ getitem basic_info "total_slides" ;;
         _ <~ mprint (lit "Total slides: " ++ format env total) ;;
         dims <~ getitem basic_info "slide_dimensions" ;;
         w0 <~ getitem dims "width" ;;
         dims' <~ getitem basic_info "slide_dimensions" ;;
         h <~ getitem dims' "height" ;;
         _ <~ mprint (lit "Dimensions: " ++ format env w0 ++ lit " x " ++ format env h) ;;
         mprint (lit "Full extraction saved to: " ++ output_file))
      {| file_path := arg_file_path args; presentation := p |}
      (prints [lit "Successfully loaded PowerPoint file: " ++ arg_file_path args] w).
Proof.
  intros H. unfold main_try.
  now rewrite (mbind_ret _ _ _ _ _ (init_loaded env _ p w H)).
Qed.

Lemma main_loaded (env : Env) (args : Args) (p : Presentation) (w : World) :
  path_exists env (arg_file_path args) = true ->
  open_presentation env (arg_file_path args) = inr p ->
  let self := {| file_path := arg_file_path args; presentation := p |} in
  let path := output_path self (arg_output args) in
  let loaded := lit "Successfully loaded PowerPoint file: " ++ arg_file_path args in
  exists report,
    extract_all_information self = Ok report
    /\ main env args w
       = if arg_text_only args then
           prints ([loaded; [newline] ++ lit "=== EXTRACTED TEXT ==="]
                   ++ flat_map text_lines (enumerate 1 (slides p))) w
         else if arg_titles_only args then
           prints ([loaded; [newline] ++ lit "=== SLIDE TITLES ==="]
                   ++ map title_line (enumerate 1 (slides p))) w
         else if can_open w path then
           {| can_open := can_open w;
              files := (path, report) :: files w;
              stdout := stdout w
                        ++ [loaded; lit "Extracted information saved to: " ++ path]
                        ++ summary_lines self path |}
         else
           prints [loaded; lit "Error: " ++ builtin_message env (Raised OSError)] w.
Proof.
  intros Hex Hload self path loaded.
  destruct (default_branch_ok env self (arg_output args) (prints [loaded] w))
    as [report [Hrep Hbranch]].
  exists report. split; [exact Hrep |].
  unfold main. rewrite Hex; simpl negb; cbv iota.
  rewrite (main_try_loaded env args p w Hload); cbv beta.
  fold self loaded.
  destruct (arg_text_only args); [| destruct (arg_titles_only args)].
  - rewrite text_branch_ok. now rewrite prints_prints.
  - rewrite titles_branch_ok. now rewrite prints_prints.
  - rewrite Hbranch. fold path.
    change (can_open (prints [loaded] w) path) with (can_open w path).
    destruct (can_open w path).
    + unfold prints, json_dump; simpl. now rewrite <- app_assoc.
    + now rewrite print_prints, prints_prints.
Qed.

Lemma main_not_loaded (env : Env) (args : Args) (w : World) :
  main env args w
  = if negb (path_exists env (arg_file_path args)) then
      prints [lit "Error: File '" ++ arg_file_path args ++ lit "' does not exist."] w
    else
      match open_presentation env (arg_file_path args) with
      | inl msg =>
          prints [lit "Error: Error loading PowerPoint file: " ++ msg] w
      | inr _ => main env args w
      end.
Proof.
  unfold main.
  destruct (negb (path_exists env (arg_file_path args))); [reflexivity |].
  destruct (open_presentation env (arg_file_path args)) as [msg | p] eqn:E;
    [| reflexivity].
  unfold main_try.
  now rewrite (mbind_raise _ _ _ _ _ (init_failed env _ msg w E)).
Qed.

(** ** Trimmed texts *)

Lemma head_ok_lstrip (s : str) : head_ok s -> lstrip s = s.
Proof. destruct s as [| c r]; simpl; [intros [] | intros H; now rewrite H]. Qed.

Lemma head_ok_app (s t : str) : head_ok s -> head_ok (s ++ t).
Proof. destruct s; simpl; [intros [] | auto]. Qed.

Lemma trimmed_strip (s : str) : trimmed s -> strip s = s.
Proof.
  intros [Hh Hl]. unfold strip, rstrip.
  rewrite (head_ok_lstrip s Hh), (head_ok_lstrip (rev s) Hl).
  apply rev_involutive.
Qed.

Lemma strip_trimmed (t : str) : truthy (strip t) = true -> trimmed (strip t).
Proof.
  intros Hne. split.
  - destruct (strip t) as [| c r] eqn:E; [discriminate |].
    simpl. exact (strip_head t c r E).
  - unfold strip, rstrip in *. rewrite rev_involutive.
    destruct (lstrip (rev (lstrip t))) as [| c r] eqn:E; [discriminate |].
    simpl. exact (lstrip_head _ c r E).
Qed.

Lemma trimmed_app (s t : str) : trimmed s -> trimmed t -> forall m, trimmed (s ++ m ++ t).
Proof.
  intros [Hs _] [_ Ht] m. split.
  - now apply head_ok_app.
  - rewrite !rev_app_distr, <- app_assoc. now apply head_ok_app.
Qed.

Lemma text_fragments_trimmed (l : list Shape) :
  Forall trimmed (text_fragments l).
Proof.
  unfold text_fragments. apply Forall_forall. intros f Hin.
  apply in_map_iff in Hin. destruct Hin as [shape [<- Hin]].
  apply filter_In in Hin. destruct Hin as [_ Ht].
  unfold has_text in Ht. unfold stripped.
  destruct (text_attr shape) as [t |]; [| discriminate].
  now apply strip_trimmed.
Qed.

Lemma join_trimmed (sep : str) (l : list str) :
  l <> [] -> Forall trimmed l -> trimmed (join sep l).
Proof.
  induction l as [| x r IH]; [congruence |].
  intros _ Hall. inversion Hall as [| ? ? Hx Hr]; subst.
  destruct r as [| y r']; [exact Hx |].
  change (join sep (x :: y :: r')) with (x ++ sep ++ join sep (y :: r')).
  apply trimmed_app; [exact Hx |]. apply IH; [discriminate | exact Hr].
Qed.

Lemma concat_trailing (sep : str) (l : list str) :
  l <> [] ->
  List.concat (map (fun fragment => fragment ++ sep) l) = join sep l ++ sep.
Proof.
  induction l as [| x r IH]; [congruence |]. intros _.
  destruct r as [| y r']; simpl.
  - now rewrite app_nil_r.
  - simpl in IH. rewrite IH by discriminate. now rewrite <- !app_assoc.
Qed.

Lemma strip_trailing_space (s : str) :
  trimmed s -> strip (s ++ lit " ") = s.
Proof.
  intros Hs. pose proof Hs as [Hh Hl]. unfold strip.
  rewrite (head_ok_lstrip (s ++ lit " ") (head_ok_app s _ Hh)).
  unfold rstrip. rewrite rev_app_distr. simpl.
  rewrite (head_ok_lstrip (rev s) Hl). apply rev_involutive.
Qed.

Lemma notes_text_join (l : list Shape) :
  strip (List.concat (map (fun fragment => fragment ++ lit " ") (text_fragments l)))
  = join (lit " ") (text_fragments l).
Proof.
  destruct (text_fragments l) as [| f r] eqn:E; [reflexivity |].
  rewrite concat_trailing by discriminate.
  apply strip_trailing_space. apply join_trimmed; [discriminate |].
  rewrite <- E. apply text_fragments_trimmed.
Qed.

(** ** What the titles look like *)






(** X1: every text fragment [extract_all_text] returns, in the
    text_elements of every slide and in all_text_combined, is a trimmed text
    that is not empty: it starts and ends with a character that is not
    whitespace, and trimming it again changes nothing. *)
Theorem all_text_fragments_are_trimmed (self : PowerPointExtractor) :
  exists entries combined,
    extract_all_text self
    = Ok (dict [("slides", VList entries);
                ("all_text_combined", VList (map VStr combined))])
    /\ List.length entries = List.length (slides (presentation self))
    /\ Forall (fun entry =>
                 exists elements,
                   dict_get "text_elements" entry = Some (VList (map VStr elements))
                   /\ Forall (fun fragment =>
                                fragment <> []
                                /\ head_ok fragment
                                /\ head_ok (rev fragment)
                                /\ strip fragment = fragment) elements)
              entries
    /\ Forall (fun fragment =>
                 fragment <> []
                 /\ head_ok fragment
                 /\ head_ok (rev fragment)
                 /\ strip fragment = fragment) combined.
Proof.
  assert (Hfr : forall l,
             Forall (fun fragment =>
                       fragment <> []
                       /\ head_ok fragment
                       /\ head_ok (rev fragment)
                       /\ strip fragment = fragment) (text_fragments l)).
  { intros l. pose proof (text_fragments_trimmed l) as Hall.
    revert Hall. apply Forall_impl. intros f Htr. pose proof Htr as [Hh Hl].
    repeat split; [| exact Hh | exact Hl | now apply trimmed_strip].
    intros ->. exact Hh. }
  do 2 eexists. split; [apply extract_all_text_ok |].
  split; [rewrite length_map; apply enumerate_length |].
  split.
  - apply Forall_forall. intros entry Hin.
    apply in_map_iff in Hin. destruct Hin as [item [<- _]].
    exists (text_fragments (shapes (snd item))). split; [reflexivity | apply Hfr].
  - apply Forall_forall. intros f Hin.
    apply in_flat_map in Hin. destruct Hin as [slide [_ Hin]].
    pose proof (Hfr (shapes slide)) as Hall.
    rewrite Forall_forall in Hall. exact (Hall f Hin).
Qed.

Lemma strip_notes_text (slide : Slide) :
  strip (notes_text_of slide) = notes_joined slide.
Proof.
  unfold notes_text_of, notes_joined.
  destruct (notes_slide slide) as [ns |]; [apply notes_text_join | reflexivity].
Qed.

(** X2: the notes [extract_notes] records for a slide are the trimmed
    non-empty texts of the shapes of its notes slide joined with single
    spaces (what ["combined_text"] is for the shapes of a slide), and a
    slide has an entry exactly when that text is not empty. *)
Theorem notes_are_joined_fragments (self : PowerPointExtractor) :
  extract_notes self
  = Ok (VList
          (map (fun item =>
                  dict [
                    ("slide_number", VInt (fst item));
                    ("notes",
                     VStr match notes_slide (snd item) with
                          | Some ns => join (lit " ") (text_fragments (notes_shapes ns))
                          | None => []
                          end)])
               (filter (fun item =>
                          truthy match notes_slide (snd item) with
                                 | Some ns =>
                                     join (lit " ") (text_fragments (notes_shapes ns))
                                 | None => []
                                 end)
                       (enumerate 1 (slides (presentation self)))))).
Proof.
  rewrite extract_notes_ok. do 2 f_equal.
  fold notes_joined.
  erewrite filter_ext; [apply map_ext |].
  - intros item. unfold notes_entry. now rewrite strip_notes_text.
  - intros item. unfold has_notes. now rewrite strip_notes_text.
Qed.





(** ** How the sections agree *)

Lemma Forall2_map_both {A B C} (R : B -> C -> Prop) (f : A -> B) (g : A -> C)
  (l : list A) :
  (forall x, R (f x) (g x)) -> Forall2 R (map f l) (map g l).
Proof.
  intros H. induction l as [| x r IH]; simpl; constructor; auto.
Qed.

Lemma filter_flags (l : list Shape) :
  List.length (filter has_text_flag (map shape_info l))
  = List.length (text_fragments l).
Proof.
  unfold text_fragments. rewrite length_map.
  induction l as [| shape r IH]; simpl; [reflexivity |].
  change (has_text_flag (shape_info shape)) with (has_text shape).
  destruct (has_text shape); simpl; now rewrite IH.
Qed.

(** X5: [extract_slide_layout_info] and [extract_all_text] agree slide by
    slide: the entries at the same position carry the same ordinal, the
    layout entry's shape_count is the number of its shape descriptors, and
    as many descriptors are flagged has_text as the text entry has text
    elements. *)
Theorem layout_agrees_with_text (self : PowerPointExtractor) :
  exists layouts texts combined,
    extract_slide_layout_info self = Ok (VList layouts)
    /\ extract_all_text self
       = Ok (dict [("slides", VList texts); ("all_text_combined", combined)])
    /\ Forall2 same_slide layouts texts.
Proof.
  do 3 eexists.
  split; [apply extract_slide_layout_info_ok |].
  split; [apply extract_all_text_ok |].
  apply Forall2_map_both. intros [i slide].
  exists i, (map shape_info (shapes slide)),
    (map VStr (text_fragments (shapes slide))).
  repeat split.
  - unfold len. now rewrite length_map.
  - rewrite length_map. apply filter_flags.
Qed.

Lemma enumerate_filter_sorted {A} (p : Z * A -> bool) (l : list A) (k : Z) :
  StronglySorted Z.lt (map fst (filter p (enumerate k l)))
  /\ Forall (fun n => k <= n < k + len l)%Z (map fst (filter p (enumerate k l))).
Proof.
  revert k; induction l as [| x r IH]; intros k; simpl.
  - split; constructor.
  - destruct (IH (k + 1)%Z) as [Hs Hb].
    assert (Hb' : Forall (fun n => k <= n < k + len (x :: r))%Z
                         (map fst (filter p (enumerate (k + 1) r)))).
    { revert Hb. apply Forall_impl. intros n. unfold len; simpl List.length. lia. }
    destruct (p (k, x)); simpl; [| now split].
    split.
    + constructor; [exact Hs |].
      revert Hb. apply Forall_impl. intros n. lia.
    + constructor; [unfold len; simpl List.length; lia | exact Hb'].
Qed.

Lemma images_entry_well_formed (item : Z * Slide) :
  has_picture item = true -> images_entry_ok (images_entry item).
Proof.
  intros H. exists (fst item), (map image_info (pictures (snd item))).
  repeat split.
  - unfold has_picture in H. rewrite filter_nil_existsb in H. unfold pictures.
    destruct (filter is_picture (shapes (snd item))); [discriminate H | discriminate].
  - unfold len. now rewrite length_map.
Qed.

(** X6: every entry of [extract_images_info] lists at least one picture,
    and its image_count is the number of pictures it lists. *)
Theorem images_entries_count_their_pictures (self : PowerPointExtractor) :
  exists entries,
    extract_images_info self = Ok (VList entries)
    /\ Forall (fun entry =>
                 exists n images,
                   dict_get "slide_number" entry = Some (VInt n)
                   /\ dict_get "images" entry = Some (VList images)
                   /\ images <> []
                   /\ dict_get "image_count" entry = Some (VInt (len images)))
              entries.
Proof.
  eexists. split; [apply extract_images_info_ok |].
  apply Forall_forall. intros entry Hin.
  apply in_map_iff in Hin. destruct Hin as [item [<- Hin]].
  apply filter_In in Hin. destruct Hin as [_ Hp].
  exact (images_entry_well_formed item Hp).
Qed.

(** X7: the entries of [extract_images_info] and of [extract_notes] come in
    slide order: their slide numbers are strictly increasing and lie between
    1 and the number of slides, so no slide has two entries. *)
Theorem partial_sections_in_slide_order (self : PowerPointExtractor) :
  exists images notes image_numbers note_numbers,
    extract_images_info self = Ok (VList images)
    /\ extract_notes self = Ok (VList notes)
    /\ map (dict_get "slide_number") images
       = map (fun n => Some (VInt n)) image_numbers
    /\ map (dict_get "slide_number") notes
       = map (fun n => Some (VInt n)) note_numbers
    /\ StronglySorted Z.lt image_numbers
    /\ StronglySorted Z.lt note_numbers
    /\ Forall (fun n => 1 <= n <= len (slides (presentation self)))%Z image_numbers
    /\ Forall (fun n => 1 <= n <= len (slides (presentation self)))%Z note_numbers.
Proof.
  pose proof (enumerate_filter_sorted has_picture (slides (presentation self)) 1)
    as [Hsi Hbi].
  pose proof (enumerate_filter_sorted has_notes (slides (presentation self)) 1)
    as [Hsn Hbn].
  do 4 eexists.
  split; [apply extract_images_info_ok |].
  split; [apply extract_notes_ok |].
  split; [apply slide_numbers_of; reflexivity |].
  split; [apply slide_numbers_of; reflexivity |].
  split; [exact Hsi |]. split; [exact Hsn |].
  split; [revert Hbi | revert Hbn]; apply Forall_impl; intros n; lia.
Qed.

(** X8: the total_slides of [extract_basic_info] is the number of entries
    of [extract_slide_titles], of the slides list of [extract_all_text] and
    of [extract_slide_layout_info]; its file_path is the path the extractor
    was built with. *)
Theorem total_slides_counts_entries (self : PowerPointExtractor) :
  exists basic_info titles texts combined layouts,
    extract_basic_info self = Ok basic_info
    /\ extract_slide_titles self = Ok (VList titles)
    /\ extract_all_text self
       = Ok (dict [("slides", VList texts); ("all_text_combined", combined)])
    /\ extract_slide_layout_info self = Ok (VList layouts)
    /\ dict_get "total_slides" basic_info = Some (VInt (len titles))
    /\ len titles = len texts
    /\ len titles = len layouts
    /\ dict_get "file_path" basic_info = Some (VStr (file_path self)).
Proof.
  do 5 eexists.
  split; [reflexivity |].
  split; [apply extract_slide_titles_ok |].
  split; [apply extract_all_text_ok |].
  split; [apply extract_slide_layout_info_ok |].
  unfold len. rewrite !length_map, enumerate_length. repeat split.
Qed.

(** ** Where the report is written *)











Lemma file_content_latest (path : str) (v : value) (w : World) :
  file_content path
    {| can_open := can_open w; files := (path, v) :: files w; stdout := stdout w |}
  = Some v.
Proof. unfold file_content; simpl. now rewrite eqb_refl. Qed.

(** X11: [save_to_json] raises the error of [open] when the output file
    cannot be opened, and then returns no path; when the file can be opened
    it returns the output path, the file at that path then holds the report
    of [extract_all_information] in place of whatever it held before, and
    the one line "Extracted information saved to: " followed by the path is
    printed. *)
Theorem save_to_json_outcome
  (self : PowerPointExtractor) (output_file : option str) (w : World) :
  let path := match output_file with
              | Some p => if negb (truthy p) then default_output_file self else p
              | None => default_output_file self
              end in
  exists report,
    extract_all_information self = Ok report
    /\ (can_open w path = false -> save_to_json self output_file w = Raise OSError)
    /\ (can_open w path = true ->
        exists w',
          save_to_json self output_file w = Ok (path, w')
          /\ file_content path w' = Some report
          /\ stdout w'
             = stdout w ++ [lit "Extracted information saved to: " ++ path]).
Proof.
  intros path.
  destruct (save_to_json_result self output_file w) as [report [Hrep Hsave]].
  exists report. split; [exact Hrep |].
  fold (output_path self output_file) in path. fold path in Hsave.
  split; intros Hopen; rewrite Hopen in Hsave; [exact Hsave |].
  eexists. split; [exact Hsave |]. split; [| reflexivity].
  apply (file_content_latest path report (print _ w)).
Qed.

Lemma save_to_json_outcome_witness :
  can_open closed_world (lit "out.json") = false
  /\ can_open {| can_open := fun _ => true;
                 files := [(lit "out.json", VStr (lit "old"))];
                 stdout := [] |} (lit "out.json") = true
  /\ save_to_json deck (Some (lit "out.json")) closed_world = Raise OSError
  /\ exists report w',
       extract_all_information deck = Ok report
       /\ save_to_json deck (Some (lit "out.json"))
            {| can_open := fun _ => true;
               files := [(lit "out.json", VStr (lit "old"))];
               stdout := [] |}
          = Ok (lit "out.json", w')
       /\ file_content (lit "out.json") w' = Some report.
Proof.
  split; [reflexivity | split; [reflexivity |]].
  split.
  - destruct (save_to_json_outcome deck (Some (lit "out.json")) closed_world)
      as [report [_ [Hfail _]]].
    exact (Hfail eq_refl).
  - destruct (save_to_json_outcome deck (Some (lit "out.json"))
                {| can_open := fun _ => true;
                   files := [(lit "out.json", VStr (lit "old"))];
                   stdout := [] |})
      as [report [Hrep [_ Hok]]].
    destruct (Hok eq_refl) as [w' [Hsave [Hcontent _]]].
    exists report, w'. auto.
Defined.

(** ** What main prints and writes *)

(** X13: when the input path exists but the document cannot be loaded,
    [main] does not raise: it prints the one line
    "Error: Error loading PowerPoint file: " followed by the text of the
    loader's exception, and writes no file. *)
Theorem main_load_failure (env : Env) (args : Args) (msg : str) (w : World) :
  path_exists env (arg_file_path args) = true ->
  open_presentation env (arg_file_path args) = inl msg ->
  main env args w
  = {| can_open := can_open w;
       files := files w;
       stdout := stdout w ++ [lit "Error: Error loading PowerPoint file: " ++ msg] |}.
Proof.
  intros Hex Hload. rewrite main_not_loaded, Hex, Hload. reflexivity.
Qed.

Lemma main_load_failure_witness :
  path_exists {| path_exists := fun _ => true;
                 open_presentation := fun _ => inl (lit "Package not found");
                 builtin_message := fun _ => [];
                 container_repr := fun _ => [] |} (lit "x.txt") = true
  /\ stdout (main {| path_exists := fun _ => true;
                     open_presentation := fun _ => inl (lit "Package not found");
                     builtin_message := fun _ => [];
                     container_repr := fun _ => [] |}
                  {| arg_file_path := lit "x.txt"; arg_output := None;
                     arg_text_only := false; arg_titles_only := false |}
                  empty_world)
     = [lit "Error: Error loading PowerPoint file: Package not found"].
Proof.
  split; [reflexivity |].
  rewrite (main_load_failure
             {| path_exists := fun _ => true;
                open_presentation := fun _ => inl (lit "Package not found");
                builtin_message := fun _ => [];
                container_repr := fun _ => [] |}
             {| arg_file_path := lit "x.txt"; arg_output := None;
                arg_text_only := false; arg_titles_only := false |}
             (lit "Package not found") empty_world eq_refl eq_refl).
  reflexivity.
Defined.

(** X14: with --text-only, on a document that loads, [main] prints the
    loading message, the header "\n=== EXTRACTED TEXT ===" and then, for
    every slide in order, the line "\nSlide <ordinal>:" followed by the
    slide's text fragments joined with single spaces; it writes no file. *)
Theorem main_text_only (env : Env) (args : Args) (p : Presentation) (w : World) :
  path_exists env (arg_file_path args) = true ->
  open_presentation env (arg_file_path args) = inr p ->
  arg_text_only args = true ->
  main env args w
  = {| can_open := can_open w;
       files := files w;
       stdout := stdout w
                 ++ [lit "Successfully loaded PowerPoint file: " ++ arg_file_path args;
                     [newline] ++ lit "=== EXTRACTED TEXT ==="]
                 ++ flat_map (fun item =>
                                [[newline] ++ lit "Slide " ++ str_of_int (fst item)
                                 ++ lit ":";
                                 join (lit " ") (text_fragments (shapes (snd item)))])
                             (enumerate 1 (slides p)) |}.
Proof.
  intros Hex Hload Htext.
  destruct (main_loaded env args p w Hex Hload) as [report [_ Hmain]].
  rewrite Hmain, Htext. reflexivity.
Qed.

Lemma main_text_only_witness :
  path_exists deck_env (arg_file_path (deck_args true false)) = true
  /\ open_presentation deck_env (arg_file_path (deck_args true false))
     = inr (presentation deck)
  /\ stdout (main deck_env (deck_args true false) empty_world)
     = [lit "Successfully loaded PowerPoint file: /tmp/deck.pptx";
        [newline] ++ lit "=== EXTRACTED TEXT ===";
        [newline] ++ lit "Slide 1:";
        quarterly].
Proof.
  split; [reflexivity | split; [reflexivity |]].
  rewrite (main_text_only deck_env (deck_args true false) (presentation deck)
             empty_world eq_refl eq_refl eq_refl).
  reflexivity.
Defined.

Lemma title_lines_of_titles (l : list Slide) (k : Z) :
  map title_line (enumerate k l)
  = map (fun item => lit "Slide " ++ str_of_int (fst item) ++ lit ": " ++ snd item)
        (enumerate k (map title_of l)).
Proof.
  revert k; induction l as [| slide r IH]; intros k; [reflexivity |].
  cbn [enumerate map]. rewrite IH. reflexivity.
Qed.

(** X15: with --titles-only and without --text-only, on a document that
    loads, [main] prints the loading message, the header
    "\n=== SLIDE TITLES ===" and one line "Slide <ordinal>: <title>" per
    slide in order; it writes no file. *)
Theorem main_titles_only (env : Env) (args : Args) (p : Presentation) (w : World) :
  path_exists env (arg_file_path args) = true ->
  open_presentation env (arg_file_path args) = inr p ->
  arg_text_only args = false ->
  arg_titles_only args = true ->
  exists titles,
    Forall2 (fun slide title => slide_title slide = Ok title) (slides p) titles
    /\ main env args w
       = {| can_open := can_open w;
            files := files w;
            stdout := stdout w
                      ++ [lit "Successfully loaded PowerPoint file: "
                          ++ arg_file_path args;
                          [newline] ++ lit "=== SLIDE TITLES ==="]
                      ++ map (fun item =>
                                lit "Slide " ++ str_of_int (fst item) ++ lit ": "
                                ++ snd item)
                             (enumerate 1 titles) |}.
Proof.
  intros Hex Hload Htext Htitles.
  destruct (main_loaded env args p w Hex Hload) as [report [_ Hmain]].
  exists (map title_of (slides p)). split.
  - rewrite <- (map_id (slides p)) at 1.
    apply Forall2_map_both. intros slide. apply slide_title_ok.
  - rewrite Hmain, Htext, Htitles. unfold prints. do 3 f_equal.
    apply title_lines_of_titles.
Qed.

Lemma main_titles_only_witness :
  path_exists deck_env (arg_file_path (deck_args false true)) = true
  /\ open_presentation deck_env (arg_file_path (deck_args false true))
     = inr (presentation deck)
  /\ exists titles,
       Forall2 (fun slide title => slide_title slide = Ok title)
               (slides (presentation deck)) titles
       /\ stdout (main deck_env (deck_args false true) empty_world)
          = stdout empty_world
            ++ [lit "Successfully loaded PowerPoint file: "
                ++ arg_file_path (deck_args false true);
                [newline] ++ lit "=== SLIDE TITLES ==="]
            ++ map (fun item =>
                      lit "Slide " ++ str_of_int (fst item) ++ lit ": " ++ snd item)
                   (enumerate 1 titles).
Proof.
  split; [reflexivity | split; [reflexivity |]].
  destruct (main_titles_only deck_env (deck_args false true) (presentation deck)
              empty_world eq_refl eq_refl eq_refl eq_refl) as [titles [H E]].
  exists titles. split; [exact H |]. rewrite E. reflexivity.
Defined.

(** X16: without --text-only and --titles-only, on a document that loads,
    [main] writes the report of [extract_all_information] to the output path
    (the --output path when it is given and not empty, else the default
    one) and prints the loading message, the saved message and the five
    summary lines with the input path, the slide count, the dimensions and
    the output path; when the output file cannot be opened it writes no file
    and prints the loading message and "Error: " followed by the text of the
    error. *)
Theorem main_full_report (env : Env) (args : Args) (p : Presentation) (w : World) :
  path_exists env (arg_file_path args) = true ->
  open_presentation env (arg_file_path args) = inr p ->
  arg_text_only args = false ->
  arg_titles_only args = false ->
  let self := {| file_path := arg_file_path args; presentation := p |} in
  let path := match arg_output args with
              | Some o => if negb (truthy o) then default_output_file self else o
              | None => default_output_file self
              end in
  exists report,
    extract_all_information self = Ok report
    /\ (can_open w path = true ->
        main env args w
        = {| can_open := can_open w;
             files := (path, report) :: files w;
             stdout :=
               stdout w
               ++ [lit "Successfully loaded PowerPoint file: " ++ arg_file_path args;
                   lit "Extracted information saved to: " ++ path;
                   [newline] ++ lit "=== SUMMARY ===";
                   lit "File: " ++ arg_file_path args;
                   lit "Total slides: " ++ str_of_int (len (slides p));
                   lit "Dimensions: " ++ str_of_int (slide_width p)
                     ++ lit " x " ++ str_of_int (slide_height p);
                   lit "Full extraction saved to: " ++ path] |})
    /\ (can_open w path = false ->
        main env args w
        = {| can_open := can_open w;
             files := files w;
             stdout :=
               stdout w
               ++ [lit "Successfully loaded PowerPoint file: " ++ arg_file_path args;
                   lit "Error: " ++ builtin_message env (Raised OSError)] |}).
Proof.
  intros Hex Hload Htext Htitles self path.
  destruct (main_loaded env args p w Hex Hload) as [report [Hrep Hmain]].
  exists report. split; [exact Hrep |].
  rewrite Htext, Htitles in Hmain.
  fold self in Hmain. fold (output_path self (arg_output args)) in path.
  fold path in Hmain.
  split; intros Hopen; rewrite Hopen in Hmain; exact Hmain.
Qed.

Lemma main_full_report_witness :
  path_exists deck_env (arg_file_path (deck_args false false)) = true
  /\ open_presentation deck_env (arg_file_path (deck_args false false))
     = inr (presentation deck)
  /\ stdout (main deck_env (deck_args false false) empty_world)
     = [lit "Successfully loaded PowerPoint file: /tmp/deck.pptx";
        lit "Extracted information saved to: slides/deck_extracted_info.json";
        [newline] ++ lit "=== SUMMARY ===";
        lit "File: /tmp/deck.pptx";
        lit "Total slides: 1";
        lit "Dimensions: 9144000 x 6858000";
        lit "Full extraction saved to: slides/deck_extracted_info.json"]
  /\ map fst (files (main deck_env (deck_args false false) empty_world))
     = [lit "slides/deck_extracted_info.json"].
Proof.
  split; [reflexivity | split; [reflexivity |]].
  destruct (main_full_report deck_env (deck_args false false) (presentation deck)
              empty_world eq_refl eq_refl eq_refl eq_refl) as [report [_ [E _]]].
  rewrite (E eq_refl). split; reflexivity.
Defined.

(** X17: whatever the environment and the command line, [main] prints at
    least one line after what was printed before and writes at most one
    file; with --text-only or --titles-only it writes none. *)
Theorem main_writes_at_most_one_file (env : Env) (args : Args) (w : World) :
  (exists lines, lines <> [] /\ stdout (main env args w) = stdout w ++ lines)
  /\ (exists written,
        files (main env args w) = written ++ files w
        /\ (List.length written <= 1)%nat
        /\ (arg_text_only args = true \/ arg_titles_only args = true ->
            written = [])).
Proof.
  rewrite main_not_loaded.
  destruct (negb (path_exists env (arg_file_path args))) eqn:Hex.
  { split; [eexists; split; [| reflexivity]; discriminate |].
    exists []. repeat split. simpl; lia. }
  destruct (open_presentation env (arg_file_path args)) as [msg | p] eqn:Hload.
  { split; [eexists; split; [| reflexivity]; discriminate |].
    exists []. repeat split. simpl; lia. }
  apply negb_false_iff in Hex.
  destruct (main_loaded env args p w Hex Hload) as [report [_ ->]].
  destruct (arg_text_only args); [| destruct (arg_titles_only args)].
  - split; [eexists; split; [| reflexivity]; discriminate |].
    exists []. repeat split. simpl; lia.
  - split; [eexists; split; [| reflexivity]; discriminate |].
    exists []. repeat split. simpl; lia.
  - match goal with |- context [if ?c then _ else _] => destruct c end.
    + split; [eexists; split; [| reflexivity]; discriminate |].
      eexists [_]. split; [reflexivity |]. split; [simpl; lia |].
      intros [H | H]; discriminate H.
    + split; [eexists; split; [| reflexivity]; discriminate |].
      exists []. repeat split. simpl; lia.
Qed.
